(** * loginless-backend: the upload and retrieval handlers of [app.py]

    A shallow embedding of the Flask application [app.py]: the extension
    allow-list, the hashing of the security answer
    ([hashlib.sha256(answer.encode()).hexdigest()]), and the three request
    handlers [upload_file], [get_security_question] and
    [retrieve_file_info], run against an in-memory model of the Supabase
    project (the table [files] and one storage bucket) in which every
    external call can succeed, fail or raise. *)

From Stdlib Require Import ZArith NArith String Ascii List Lia Bool.
From stdpp Require Import base list gmap.
Import ListNotations.
Local Open Scope N_scope.

(** ** Python values *)

(** A Python [str] is a sequence of Unicode code points; [bytes] is a
    sequence of octets. *)
Definition pystr := list N.
Definition bytes := list N.

(** String literals of the source, as code points. *)
Definition lit (s : string) : pystr :=
  map N_of_ascii (list_ascii_of_string s).

(** Truthiness of a [str]: the empty string is falsy. *)
Definition truthy (s : pystr) : bool :=
  match s with [] => false | _ :: _ => true end.

(** Truthiness of a value that may be [None]. *)
Definition truthy_opt (o : option pystr) : bool :=
  match o with None => false | Some s => truthy s end.

Definition str_eqb (s t : pystr) : bool := bool_decide (s = t).

(** Exceptions. [str.encode] raises [UnicodeEncodeError] at the position of
    the first lone surrogate; [IndexError] is what [l[1]] raises on a list
    that is too short; everything the Supabase client or the uploaded file
    object raises is an [ExternalError] carrying its [str(e)]. *)
Inductive exn :=
| UnicodeEncodeError (position : nat)
| IndexError
| ExternalError (message : pystr).

(** The result of evaluating an expression: a value, or a raised exception. *)
Inductive outcome (A : Type) :=
| Val (a : A)
| Raised (e : exn).
Arguments Val {A} a.
Arguments Raised {A} e.

(** ** [str.encode()]: UTF-8 *)

Definition is_surrogate (c : N) : bool := (0xD800 <=? c) && (c <=? 0xDFFF).

Definition utf8_char (c : N) : bytes :=
  if c <? 0x80 then [c]
  else if c <? 0x800 then
    [N.lor 0xC0 (N.shiftr c 6); N.lor 0x80 (N.land c 0x3F)]
  else if c <? 0x10000 then
    [N.lor 0xE0 (N.shiftr c 12);
     N.lor 0x80 (N.land (N.shiftr c 6) 0x3F);
     N.lor 0x80 (N.land c 0x3F)]
  else
    [N.lor 0xF0 (N.shiftr c 18);
     N.lor 0x80 (N.land (N.shiftr c 12) 0x3F);
     N.lor 0x80 (N.land (N.shiftr c 6) 0x3F);
     N.lor 0x80 (N.land c 0x3F)].

Fixpoint encode_from (pos : nat) (s : pystr) : outcome bytes :=
  match s with
  | [] => Val []
  | c :: rest =>
    if is_surrogate c then Raised (UnicodeEncodeError pos)
    else match encode_from (S pos) rest with
         | Val b => Val (utf8_char c ++ b)
         | Raised e => Raised e
         end
  end.

Definition encode (s : pystr) : outcome bytes := encode_from 0 s.

(** ** [hashlib.sha256]: SHA-256 (FIPS 180-4) on 32-bit words *)

Module SHA256.

Definition mask32 : N := 0xFFFFFFFF.
Definition add32 (x y : N) : N := N.land (x + y) mask32.
Definition not32 (x : N) : N := N.lxor x mask32.
Definition rotr (n x : N) : N :=
  N.lor (N.shiftr x n) (N.land (N.shiftl x (32 - n)) mask32).

Definition Ch (x y z : N) : N := N.lxor (N.land x y) (N.land (not32 x) z).
Definition Maj (x y z : N) : N :=
  N.lxor (N.lxor (N.land x y) (N.land x z)) (N.land y z).
Definition bsig0 (x : N) : N := N.lxor (N.lxor (rotr 2 x) (rotr 13 x)) (rotr 22 x).
Definition bsig1 (x : N) : N := N.lxor (N.lxor (rotr 6 x) (rotr 11 x)) (rotr 25 x).
Definition ssig0 (x : N) : N := N.lxor (N.lxor (rotr 7 x) (rotr 18 x)) (N.shiftr x 3).
Definition ssig1 (x : N) : N := N.lxor (N.lxor (rotr 17 x) (rotr 19 x)) (N.shiftr x 10).

(** Round constants. *)
Definition K : list N :=
  [0x428A2F98; 0x71374491; 0xB5C0FBCF; 0xE9B5DBA5;
   0x3956C25B; 0x59F111F1; 0x923F82A4; 0xAB1C5ED5;
   0xD807AA98; 0x12835B01; 0x243185BE; 0x550C7DC3;
   0x72BE5D74; 0x80DEB1FE; 0x9BDC06A7; 0xC19BF174;
   0xE49B69C1; 0xEFBE4786; 0x0FC19DC6; 0x240CA1CC;
   0x2DE92C6F; 0x4A7484AA; 0x5CB0A9DC; 0x76F988DA;
   0x983E5152; 0xA831C66D; 0xB00327C8; 0xBF597FC7;
   0xC6E00BF3; 0xD5A79147; 0x06CA6351; 0x14292967;
   0x27B70A85; 0x2E1B2138; 0x4D2C6DFC; 0x53380D13;
   0x650A7354; 0x766A0ABB; 0x81C2C92E; 0x92722C85;
   0xA2BFE8A1; 0xA81A664B; 0xC24B8B70; 0xC76C51A3;
   0xD192E819; 0xD6990624; 0xF40E3585; 0x106AA070;
   0x19A4C116; 0x1E376C08; 0x2748774C; 0x34B0BCB5;
   0x391C0CB3; 0x4ED8AA4A; 0x5B9CCA4F; 0x682E6FF3;
   0x748F82EE; 0x78A5636F; 0x84C87814; 0x8CC70208;
   0x90BEFFFA; 0xA4506CEB; 0xBEF9A3F7; 0xC67178F2].

(** The eight working variables, and the chaining value. *)
Record state := State { sa : N; sb : N; sc : N; sd : N; se : N; sf : N; sg : N; sh : N }.

Definition initial : state :=
  State 0x6A09E667 0xBB67AE85 0x3C6EF372 0xA54FF53A
        0x510E527F 0x9B05688C 0x1F83D9AB 0x5BE0CD19.

(** Padding: a 1 bit, zero bits up to 56 modulo 64 octets, then the length
    of the message in bits as a 64-bit big-endian number. *)
Definition be_bytes (n : nat) (x : N) : bytes :=
  map (fun i => N.land (N.shiftr x (8 * N.of_nat i)) 0xFF) (rev (seq 0 n)).

Definition pad (msg : bytes) : bytes :=
  let len := N.of_nat (length msg) in
  msg ++ [0x80] ++ repeat 0 (N.to_nat ((119 - len mod 64) mod 64))
      ++ be_bytes 8 (N.land (8 * len) 0xFFFFFFFFFFFFFFFF).

Fixpoint be_words (n : nat) (b : bytes) : list N :=
  match n, b with
  | S n', b0 :: b1 :: b2 :: b3 :: rest =>
    N.lor (N.shiftl b0 24) (N.lor (N.shiftl b1 16) (N.lor (N.shiftl b2 8) b3))
      :: be_words n' rest
  | _, _ => []
  end.

(** The message schedule: sixteen words of the block, extended to 64. *)
Fixpoint extend (n : nat) (ws : list N) : list N :=
  match n with
  | O => ws
  | S n' =>
    let t := length ws in
    let w := add32 (add32 (ssig1 (nth (t - 2) ws 0)) (nth (t - 7) ws 0))
                   (add32 (ssig0 (nth (t - 15) ws 0)) (nth (t - 16) ws 0)) in
    extend n' (ws ++ [w])
  end.

Definition round (s : state) (kw : N * N) : state :=
  let t1 := add32 (add32 (add32 (sh s) (bsig1 (se s))) (Ch (se s) (sf s) (sg s)))
                  (add32 (fst kw) (snd kw)) in
  let t2 := add32 (bsig0 (sa s)) (Maj (sa s) (sb s) (sc s)) in
  State (add32 t1 t2) (sa s) (sb s) (sc s) (add32 (sd s) t1) (se s) (sf s) (sg s).

Definition compress (hv : state) (block : bytes) : state :=
  let ws := extend 48 (be_words 16 block) in
  let s := fold_left round (combine K ws) hv in
  State (add32 (sa hv) (sa s)) (add32 (sb hv) (sb s))
        (add32 (sc hv) (sc s)) (add32 (sd hv) (sd s))
        (add32 (se hv) (se s)) (add32 (sf hv) (sf s))
        (add32 (sg hv) (sg s)) (add32 (sh hv) (sh s)).

(** Blocks of 64 octets; [n] bounds the number of blocks. *)
Fixpoint blocks (n : nat) (hv : state) (b : bytes) : state :=
  match n, b with
  | S n', _ :: _ => blocks n' (compress hv (firstn 64 b)) (skipn 64 b)
  | _, _ => hv
  end.

Definition digest_state (msg : bytes) : state :=
  let p := pad msg in blocks (length p) initial p.

(** [hexdigest()]: each word as eight lowercase hexadecimal digits. *)
Definition hex_digit (d : N) : N := if d <? 10 then 48 + d else 87 + d.

Definition hex32 (x : N) : pystr :=
  map (fun i => hex_digit (N.land (N.shiftr x (4 * N.of_nat i)) 0xF))
      (rev (seq 0 8)).

Definition hexdigest (msg : bytes) : pystr :=
  let s := digest_state msg in
  hex32 (sa s) ++ hex32 (sb s) ++ hex32 (sc s) ++ hex32 (sd s) ++
  hex32 (se s) ++ hex32 (sf s) ++ hex32 (sg s) ++ hex32 (sh s).

End SHA256.

(** [hashlib.sha256(answer.encode()).hexdigest()] *)
Definition hash_answer (answer : pystr) : outcome pystr :=
  match encode answer with
  | Val b => Val (SHA256.hexdigest b)
  | Raised e => Raised e
  end.

(** ** Configuration: the extension allow-list *)

Definition ALLOWED_EXTENSIONS : gset pystr :=
  {[ lit "pdf"; lit "txt"; lit "png"; lit "jpg"; lit "jpeg";
     lit "gif"; lit "docx"; lit "doc"; lit "xlsx"; lit "xls" ]}.

Definition dot : N := 46.

(** [sub in s] for a one-character [sub]. *)
Definition contains (c : N) (s : pystr) : bool := existsb (N.eqb c) s.

(** [s.rsplit(sep, 1)]: split once, at the last occurrence of [sep]. *)
Fixpoint split_last (sep : N) (s : pystr) : option (pystr * pystr) :=
  match s with
  | [] => None
  | c :: rest =>
    match split_last sep rest with
    | Some (h, t) => Some (c :: h, t)
    | None => if c =? sep then Some ([], rest) else None
    end
  end.

Definition rsplit1 (sep : N) (s : pystr) : list pystr :=
  match split_last sep s with
  | Some (h, t) => [h; t]
  | None => [s]
  end.

(** [l[i]] *)
Definition getitem {A} (l : list A) (i : nat) : outcome A :=
  match l !! i with
  | Some x => Val x
  | None => Raised IndexError
  end.

(** [str.lower()]. ASCII capitals go to their small letters. Outside ASCII
    Python lowers by the Unicode tables; the two code points whose lowercase
    contains an ASCII letter are written out (KELVIN SIGN, and LATIN CAPITAL
    LETTER I WITH DOT ABOVE, which becomes [i] followed by COMBINING DOT
    ABOVE). Every other code point outside ASCII lowers to code points
    outside ASCII and is kept as it is: the result is then not Python's, but
    it is an ASCII string exactly when Python's is, and then the same one. *)
Definition lower_char (c : N) : pystr :=
  if (65 <=? c) && (c <=? 90) then [c + 32]
  else if c =? 0x212A then [107]
  else if c =? 0x130 then [105; 0x307]
  else [c].

Definition lower (s : pystr) : pystr := flat_map lower_char s.

Definition allowed_file (filename : pystr) : outcome bool :=
  if contains dot filename then
    match getitem (rsplit1 dot filename) 1 with
    | Val ext => Val (bool_decide (lower ext ∈ ALLOWED_EXTENSIONS))
    | Raised e => Raised e
    end
  else Val false.


(** ** The Supabase project: table [files] and the storage bucket *)

(** A row of the table [files], with the columns the application writes
    ([uploaded_at] is filled in by the database and never read). *)
Record FileRecord := {
  serial_code : pystr;
  security_question : pystr;
  hashed_answer : pystr;
  file_path : pystr;
  original_filename : pystr
}.

(** Formatted text: the pieces of an f-string. [str(e)] of an exception is
    kept as the exception itself. *)
Inductive piece :=
| Txt (s : string)
| Str (s : pystr)
| StrOf (e : exn).
Definition text := list piece.

(** The calls made to the Supabase client. *)
Inductive call :=
| TableSelect (serial : pystr)
| TableInsert (row : FileRecord)
| StorageUpload (path : pystr) (file : bytes) (content_type : pystr)
| StorageGetPublicUrl (path : pystr)
| StorageRemove (paths : list pystr).

(** The world a request runs in: the rows of [files] in the order a query
    returns them, the objects of the bucket by path, and, as a record of
    what the request did, the calls issued (oldest first) and the lines
    printed. *)
Record World := {
  table : list FileRecord;
  bucket : gmap pystr bytes;
  calls : list call;
  stdout : list text
}.

Definition set_table (f : list FileRecord → list FileRecord) (w : World) : World :=
  {| table := f (table w); bucket := bucket w; calls := calls w; stdout := stdout w |}.
Definition set_bucket (f : gmap pystr bytes → gmap pystr bytes) (w : World) : World :=
  {| table := table w; bucket := f (bucket w); calls := calls w; stdout := stdout w |}.
Definition set_calls (f : list call → list call) (w : World) : World :=
  {| table := table w; bucket := bucket w; calls := f (calls w); stdout := stdout w |}.
Definition set_stdout (f : list text → list text) (w : World) : World :=
  {| table := table w; bucket := bucket w; calls := calls w; stdout := f (stdout w) |}.

(** What the outside does at each call of one request. The client either
    returns or raises; a returned answer can still report a failure. *)
Inductive select_outcome :=
| SelectReturns
| SelectRaises (e : exn).

Inductive read_outcome :=
| ReadReturns
| ReadRaises (e : exn).

(** [status_code] of the upload response and what [response.json()] gives. *)
Inductive upload_outcome :=
| UploadResponds (status_code : N) (json : outcome pystr)
| UploadRaises (e : exn).

(** [file_url_response.data.get('publicUrl')]: a URL or [None]. *)
Inductive url_outcome :=
| UrlResponds (publicUrl : option pystr)
| UrlRaises (e : exn).

(** [data, count = ...execute()]. [Inserted]: the row was written and [data]
    is not empty, which is what unpacking the response object of the client
    gives (two pairs, name and value). [NotInserted]: a reply that unpacks
    to an empty [data], the row not written; the response object of the
    client never unpacks so, and it stands for a client that returns the
    pair itself. [InsertRaises]: the client raises, which is how it reports
    a failed insert. *)
Inductive insert_outcome :=
| Inserted (count : pystr)
| NotInserted (count : pystr)
| InsertRaises (e : exn).

Inductive remove_outcome :=
| Removed
| NotRemoved
| RemoveRaises (e : exn).

Record Outcomes := {
  on_select : select_outcome;
  on_read : read_outcome;
  on_upload : upload_outcome;
  on_get_public_url : url_outcome;
  on_insert : insert_outcome;
  on_remove : remove_outcome;          (* the removal after a failed insert *)
  on_cleanup : remove_outcome          (* the removal in the exception handler *)
}.

(** ** Statements with effects: state and exceptions *)

Definition M (A : Type) : Type := World → outcome A * World.

Definition ret {A} (a : A) : M A := fun w => (Val a, w).

Definition bind {A B} (m : M A) (k : A → M B) : M B :=
  fun w => match m w with
           | (Val a, w') => k a w'
           | (Raised e, w') => (Raised e, w')
           end.

Definition raise {A} (e : exn) : M A := fun w => (Raised e, w).

Definition lift {A} (o : outcome A) : M A := fun w => (o, w).

(** [try: m  except Exception as e: h e] *)
Definition try_except {A} (m : M A) (h : exn → M A) : M A :=
  fun w => match m w with
           | (Val a, w') => (Val a, w')
           | (Raised e, w') => h e w'
           end.

Definition modify (f : World → World) : M unit := fun w => (Val tt, f w).
Definition gets {A} (f : World → A) : M A := fun w => (Val (f w), w).

Declare Scope py_scope.
Delimit Scope py_scope with py.
Notation "x <- m ;; k" := (bind m (fun x => k))
  (at level 100, m at next level, right associativity) : py_scope.
Notation "m ;;; k" := (bind m (fun _ => k))
  (at level 100, right associativity) : py_scope.
Local Open Scope py_scope.

(** ** The Supabase client *)

Definition issue (c : call) : M unit := modify (set_calls (fun cs => cs ++ [c])).

(** [supabase.table('files').select(...).eq('serial_code', s).execute().data] *)
Definition table_select (o : select_outcome) (s : pystr) : M (list FileRecord) :=
  issue (TableSelect s) ;;;
  match o with
  | SelectReturns => gets (fun w => filter (fun r => serial_code r = s) (table w))
  | SelectRaises e => raise e
  end.

(** [supabase.table('files').insert(row).execute()] *)
Definition table_insert (o : insert_outcome) (row : FileRecord)
  : M (list FileRecord * pystr) :=
  issue (TableInsert row) ;;;
  match o with
  | Inserted count => modify (set_table (fun t => t ++ [row])) ;;; ret ([row], count)
  | NotInserted count => ret ([], count)
  | InsertRaises e => raise e
  end.

(** [supabase.storage.from_(bucket).upload(file=..., path=..., file_options=...)] *)
Definition storage_upload (o : upload_outcome) (path : pystr) (file : bytes)
    (content_type : pystr) : M (N * outcome pystr) :=
  issue (StorageUpload path file content_type) ;;;
  match o with
  | UploadResponds status_code json =>
    (if status_code =? 200 then modify (set_bucket (fun b => <[path := file]> b))
     else ret tt) ;;;
    ret (status_code, json)
  | UploadRaises e => raise e
  end.

(** [supabase.storage.from_(bucket).get_public_url(path).data.get('publicUrl')] *)
Definition storage_get_public_url (o : url_outcome) (path : pystr) : M (option pystr) :=
  issue (StorageGetPublicUrl path) ;;;
  match o with
  | UrlResponds publicUrl => ret publicUrl
  | UrlRaises e => raise e
  end.

(** [supabase.storage.from_(bucket).remove(paths)] *)
Definition storage_remove (o : remove_outcome) (paths : list pystr) : M unit :=
  issue (StorageRemove paths) ;;;
  match o with
  | Removed => modify (set_bucket (fun b => foldr delete b paths))
  | NotRemoved => ret tt
  | RemoveRaises e => raise e
  end.

(** Writing a line to the standard output. *)
Definition print (t : text) : M unit := modify (set_stdout (fun out => out ++ [t])).

(** The index of the first lone surrogate of a string, and of [str(e)]: the
    text of an [ExternalError] is its message; the texts of the two other
    exceptions are ASCII. *)
Fixpoint surrogate_index (s : pystr) : option nat :=
  match s with
  | [] => None
  | c :: rest =>
    if is_surrogate c then Some 0%nat
    else match surrogate_index rest with
         | Some i => Some (S i)
         | None => None
         end
  end.

Definition exn_surrogate_index (e : exn) : option nat :=
  match e with
  | ExternalError message => surrogate_index message
  | _ => None
  end.

(** The position of the first lone surrogate in the line
    [f"Cleanup failed for {path}: {cleanup_e}"]. *)
Definition line_surrogate (path : pystr) (cleanup_e : exn) : option nat :=
  match surrogate_index path with
  | Some i => Some (length (lit "Cleanup failed for ") + i)%nat
  | None =>
    match exn_surrogate_index cleanup_e with
    | Some j =>
      Some (length (lit "Cleanup failed for ") + length path
            + length (lit ": ") + j)%nat
    | None => None
    end
  end.

(** Line 112: [print(f"Cleanup failed for {path}: {cleanup_e}")]. The
    standard output encodes UTF-8 with the error handler [strict], the
    default: a lone surrogate in the line makes [print] raise
    [UnicodeEncodeError] at its position, and nothing is written. *)
Definition print_cleanup_failed (path : pystr) (cleanup_e : exn) : M unit :=
  match line_surrogate path cleanup_e with
  | Some position => raise (UnicodeEncodeError position)
  | None => print [Txt "Cleanup failed for "; Str path; Txt ": "; StrOf cleanup_e]
  end.

(** ** Requests and responses *)

(** [jsonify(body), status] *)
Record Response := {
  body : list (string * text);
  status : N
}.
Definition jsonify (fields : list (string * text)) (code : N) : Response :=
  {| body := fields; status := code |}.

(** [request.files['file']] *)
Record FileStorage := {
  filename : option pystr;
  content : bytes;
  content_type : pystr
}.

(** The multipart form of [POST /upload]; an absent field is [None]. *)
Record UploadRequest := {
  files_file : option FileStorage;
  form_serialCode : option pystr;
  form_securityQuestion : option pystr;
  form_securityAnswer : option pystr
}.

(** The body of [POST /get_question] and [POST /retrieve] as the handlers
    work with it from lines 122 and 141 on: [request.get_json()] gave a JSON
    object, and the values read from it with [data.get] are strings; a key
    that is absent, or whose value is [null], is [None]. Other bodies are
    not requests of these types: on a body that is not an object [data.get]
    raises [AttributeError] at lines 120 and 138, before the [try] blocks,
    and for a value that is not a string the handlers depend on how the
    client writes it into the query. *)
Record QuestionRequest := {
  question_serialCode : option pystr
}.
Record RetrieveRequest := {
  json_serialCode : option pystr;
  json_securityAnswer : option pystr
}.

(** What a [try] block does: it returns a response from the handler, or
    falls through to the statements after it. *)
Inductive flow (A : Type) :=
| Return (r : Response)
| Next (a : A).
Arguments Return {A} r.
Arguments Next {A} a.

Definition after {A} (m : M (flow A)) (k : A → M Response) : M Response :=
  r <- m ;;
  match r with
  | Return resp => ret resp
  | Next a => k a
  end.

Section Handlers.

(** [werkzeug.utils.secure_filename] *)
Variable secure_filename : pystr → pystr.

(** Lines 55-61: the check that the serial code is new. *)
Definition check_serial_code (env : Outcomes) (serial_code : pystr) : M (flow unit) :=
  try_except
    (response_data <- table_select (on_select env) serial_code ;;
     match response_data with
     | _ :: _ =>
       ret (Return (jsonify
         [("error"%string, [Txt "Serial code already exists. Please choose a different one."])]
         409))
     | [] => ret (Next tt)
     end)
    (fun e =>
       ret (Return (jsonify
         [("error"%string, [Txt "Database error during serial code check: "; StrOf e])] 500))).

(** Lines 73-105: the body of the [try] block. Falls through with
    [file_url]. *)
Definition store_file_body (env : Outcomes) (file : FileStorage)
    (serial_code question answer_hash original_filename
     supabase_storage_filename : pystr) : M (flow pystr) :=
  _ <- (match on_read env with
        | ReadReturns => ret tt
        | ReadRaises e => raise e
        end) ;;
  let file_content := content file in
  response <- storage_upload (on_upload env) supabase_storage_filename
                file_content (content_type file) ;;
  if negb (fst response =? 200) then
    j <- lift (snd response) ;;
    ret (Return (jsonify
      [("error"%string, [Txt "Failed to upload file to storage: "; Str j])] 500))
  else
    file_url <- storage_get_public_url (on_get_public_url env)
                  supabase_storage_filename ;;
    if negb (truthy_opt file_url) then
      ret (Return (jsonify
        [("error"%string, [Txt "Could not get public URL for uploaded file."])] 500))
    else
      let file_url := default [] file_url in
      dc <- table_insert (on_insert env)
              {| serial_code := serial_code;
                 security_question := question;
                 hashed_answer := answer_hash;
                 file_path := file_url;
                 original_filename := original_filename |} ;;
      match fst dc with
      | [] =>
        storage_remove (on_remove env) [supabase_storage_filename] ;;;
        ret (Return (jsonify
          [("error"%string, [Txt "Failed to store file metadata: "; Str (snd dc)])] 500))
      | _ :: _ => ret (Next file_url)
      end.

(** Lines 107-113: the handler of the [try] block. An exception of
    [print] is raised inside the [except] clause and is not handled. *)
Definition cleanup (env : Outcomes) (supabase_storage_filename : pystr) (e : exn)
  : M (flow pystr) :=
  try_except
    (storage_remove (on_cleanup env) [supabase_storage_filename])
    (fun cleanup_e =>
       print_cleanup_failed supabase_storage_filename cleanup_e) ;;;
  ret (Return (jsonify
    [("error"%string, [Txt "Failed to upload file or metadata: "; StrOf e])] 500)).

(** Lines 72-113. *)
Definition store_file (env : Outcomes) (file : FileStorage)
    (serial_code question answer_hash original_filename
     supabase_storage_filename : pystr) : M (flow pystr) :=
  try_except
    (store_file_body env file serial_code question answer_hash
       original_filename supabase_storage_filename)
    (cleanup env supabase_storage_filename).

(** [POST /upload] *)
Definition upload_file (req : UploadRequest) (env : Outcomes) : M Response :=
  match files_file req with
  | None => ret (jsonify [("error"%string, [Txt "No file part"])] 400)
  | Some file =>
    let serial_code := form_serialCode req in
    let question := form_securityQuestion req in
    let answer := form_securityAnswer req in
    if negb (forallb truthy_opt [serial_code; question; answer; filename file]) then
      ret (jsonify [("error"%string, [Txt "Missing data"])] 400)
    else
      let serial_code := default [] serial_code in
      let question := default [] question in
      let answer := default [] answer in
      let file_filename := default [] (filename file) in
      allowed <- lift (allowed_file file_filename) ;;
      if negb allowed then
        ret (jsonify [("error"%string, [Txt "File type not allowed"])] 400)
      else
        after (check_serial_code env serial_code) (fun _ =>
        answer_hash <- lift (hash_answer answer) ;;
        let original_filename := secure_filename file_filename in
        let supabase_storage_filename :=
          serial_code ++ lit "/" ++ original_filename in
        after (store_file env file serial_code question answer_hash
                 original_filename supabase_storage_filename) (fun file_url =>
        ret (jsonify [("message"%string, [Txt "File uploaded successfully!"]);
                      ("fileUrl"%string, [Str file_url])] 201)))
  end.

(** [POST /get_question] *)
Definition get_security_question (req : QuestionRequest) (env : Outcomes) : M Response :=
  let serial_code := question_serialCode req in
  if negb (truthy_opt serial_code) then
    ret (jsonify [("error"%string, [Txt "Missing serial code"])] 400)
  else
    let serial_code := default [] serial_code in
    try_except
      (response_data <- table_select (on_select env) serial_code ;;
       if negb (bool_decide (response_data = [])) then
         row <- lift (getitem response_data 0) ;;
         ret (jsonify [("securityQuestion"%string, [Str (security_question row)])] 200)
       else
         ret (jsonify [("error"%string, [Txt "Serial code not found"])] 404))
      (fun e => ret (jsonify [("error"%string, [Txt "Database error: "; StrOf e])] 500)).

(** [POST /retrieve] *)
Definition retrieve_file_info (req : RetrieveRequest) (env : Outcomes) : M Response :=
  let serial_code := json_serialCode req in
  let answer := json_securityAnswer req in
  if negb (truthy_opt serial_code) || negb (truthy_opt answer) then
    ret (jsonify [("error"%string, [Txt "Missing data"])] 400)
  else
    let serial_code := default [] serial_code in
    let answer := default [] answer in
    try_except
      (response_data <- table_select (on_select env) serial_code ;;
       if bool_decide (response_data = []) then
         ret (jsonify [("error"%string, [Txt "Invalid serial code"])] 404)
       else
         file_data <- lift (getitem response_data 0) ;;
         let stored_answer_hash := hashed_answer file_data in
         let stored_file_path := file_path file_data in
         let original_filename := original_filename file_data in
         provided_answer_hash <- lift (hash_answer answer) ;;
         if negb (str_eqb stored_answer_hash provided_answer_hash) then
           ret (jsonify [("error"%string, [Txt "Incorrect security answer"])] 403)
         else
           ret (jsonify [("message"%string, [Txt "Verification successful"]);
                         ("downloadUrl"%string, [Str stored_file_path]);
                         ("originalFilename"%string, [Str original_filename])] 200))
      (fun e => ret (jsonify [("error"%string, [Txt "Database error: "; StrOf e])] 500)).

(** The three routes, and a server handling requests one after the other. *)
Inductive request :=
| Upload (req : UploadRequest)
| GetQuestion (req : QuestionRequest)
| Retrieve (req : RetrieveRequest).

Definition handle (rq : request) (env : Outcomes) : M Response :=
  match rq with
  | Upload req => upload_file req env
  | GetQuestion req => get_security_question req env
  | Retrieve req => retrieve_file_info req env
  end.

Fixpoint serve (rqs : list (request * Outcomes)) (w : World) : World :=
  match rqs with
  | [] => w
  | (rq, env) :: rest => serve rest (snd (handle rq env w))
  end.

End Handlers.

(** ** Predicates of the statements below *)

(** A lowercase hexadecimal digit: [0-9a-f]. *)
Definition is_hex_char (c : N) : bool :=
  ((48 <=? c) && (c <=? 57)) || ((97 <=? c) && (c <=? 102)).

(** The request gets past lines 41-53: the file part is there, the four
    values are present and not empty, and the extension is allowed. *)
Definition passes_validation (req : UploadRequest) : bool :=
  match files_file req with
  | None => false
  | Some file =>
    forallb truthy_opt [form_serialCode req; form_securityQuestion req;
                        form_securityAnswer req; filename file]
    && match allowed_file (default [] (filename file)) with
       | Val ok => ok
       | Raised _ => false
       end
  end.

(** The values the handler works with once the request is validated. *)
Definition serial_of (req : UploadRequest) : pystr := default [] (form_serialCode req).
Definition question_of (req : UploadRequest) : pystr :=
  default [] (form_securityQuestion req).
Definition answer_of (req : UploadRequest) : pystr :=
  default [] (form_securityAnswer req).
Definition filename_of (req : UploadRequest) : pystr :=
  default [] (files_file req ≫= filename).

(** [f"{serial_code}/{original_filename}"] *)
Definition storage_path (secure_filename : pystr → pystr) (req : UploadRequest) : pystr :=
  serial_of req ++ lit "/" ++ secure_filename (filename_of req).

(** The world after one more call to the client. *)
Definition called (c : call) (w : World) : World :=
  set_calls (fun cs => cs ++ [c]) w.

(** The worlds the [try] block of an upload goes through, call by call. *)
Section Trace.

Variables (file : FileStorage) (path : pystr) (row : FileRecord).

Definition after_upload_call (w : World) : World :=
  called (StorageUpload path (content file) (content_type file)) w.
Definition after_url_call (w : World) : World :=
  called (StorageGetPublicUrl path)
    (set_bucket (fun b => <[path := content file]> b) (after_upload_call w)).
Definition after_insert_call (w : World) : World :=
  called (TableInsert row) (after_url_call w).
Definition after_remove_call (w : World) : World :=
  called (StorageRemove [path]) (after_insert_call w).

End Trace.

(** The row an upload inserts. *)
Definition new_row (serial question answer_hash url name : pystr) : FileRecord :=
  {| serial_code := serial; security_question := question;
     hashed_answer := answer_hash; file_path := url; original_filename := name |}.

(** The rows a query for [s] returns. *)
Definition rows_of (s : pystr) (w : World) : list FileRecord :=
  filter (fun r => serial_code r = s) (table w).

(** The request reaches the [try] block of the upload: it is valid, the
    query for its serial code answers with no row, and the answer hashes to
    [answer_hash]. *)
Definition reaches_storage (req : UploadRequest) (env : Outcomes) (w : World)
    (file : FileStorage) (answer_hash : pystr) : Prop :=
  files_file req = Some file ∧
  passes_validation req = true ∧
  on_select env = SelectReturns ∧
  rows_of (serial_of req) w = [] ∧
  hash_answer (answer_of req) = Val answer_hash.


(** The requests of the retrieval side, for a serial code and an answer. *)
Definition question_for (s : pystr) : QuestionRequest :=
  {| question_serialCode := Some s |}.
Definition retrieval (s a : pystr) : RetrieveRequest :=
  {| json_serialCode := Some s; json_securityAnswer := Some a |}.

(** A statement only ever adds rows at the end of the table. *)
Definition table_grows {A} (m : M A) : Prop :=
  ∀ w, ∃ added, table (snd (m w)) = table w ++ added.

(** The responses of the handlers. *)
Definition error_response (message : text) (code : N) : Response :=
  jsonify [("error"%string, message)] code.

Definition uploaded (file_url : pystr) : Response :=
  jsonify [("message"%string, [Txt "File uploaded successfully!"]);
           ("fileUrl"%string, [Str file_url])] 201.

Definition verified (r : FileRecord) : Response :=
  jsonify [("message"%string, [Txt "Verification successful"]);
           ("downloadUrl"%string, [Str (file_path r)]);
           ("originalFilename"%string, [Str (original_filename r)])] 200.



(** The line that reports a failed removal. *)
Definition cleanup_line (path : pystr) (cleanup_e : exn) : text :=
  [Txt "Cleanup failed for "; Str path; Txt ": "; StrOf cleanup_e].

(** The handler of the [try] block, for the exception [e]: what it gives
    back, and the world it leaves. *)
Definition handled (env : Outcomes) (path : pystr) (e : exn) : outcome Response :=
  match on_cleanup env with
  | RemoveRaises cleanup_e =>
    match line_surrogate path cleanup_e with
    | Some position => Raised (UnicodeEncodeError position)
    | None =>
      Val (error_response [Txt "Failed to upload file or metadata: "; StrOf e] 500)
    end
  | _ => Val (error_response [Txt "Failed to upload file or metadata: "; StrOf e] 500)
  end.

Definition cleanup_world (env : Outcomes) (path : pystr) (w : World) : World :=
  let w1 := called (StorageRemove [path]) w in
  match on_cleanup env with
  | Removed => set_bucket (delete path) w1
  | NotRemoved => w1
  | RemoveRaises cleanup_e =>
    match line_surrogate path cleanup_e with
    | Some _ => w1
    | None => set_stdout (fun out => out ++ [cleanup_line path cleanup_e]) w1
    end
  end.

(** ** A scenario: the upload of [report.pdf] under [SN123] *)

Definition empty_world : World :=
  {| table := []; bucket := ∅; calls := []; stdout := [] |}.

Definition sample_url : pystr :=
  lit "https://project.supabase.co/storage/v1/object/public/uploads/SN123/report.pdf".

Definition all_fine : Outcomes :=
  {| on_select := SelectReturns;
     on_read := ReadReturns;
     on_upload := UploadResponds 200 (Val (lit "{}"));
     on_get_public_url := UrlResponds (Some sample_url);
     on_insert := Inserted (lit "None");
     on_remove := Removed;
     on_cleanup := Removed |}.

Definition report_pdf : FileStorage :=
  {| filename := Some (lit "report.pdf");
     content := [37; 80; 68; 70];
     content_type := lit "application/pdf" |}.

Definition sample_upload : UploadRequest :=
  {| files_file := Some report_pdf;
     form_serialCode := Some (lit "SN123");
     form_securityQuestion := Some (lit "What city?");
     form_securityAnswer := Some (lit "Paris") |}.

(** [secure_filename] leaves [report.pdf] as it is; the scenario runs with
    a stand-in that keeps every name. *)
Definition keep_name (name : pystr) : pystr := name.

Definition sample_row : FileRecord :=
  {| serial_code := lit "SN123";
     security_question := lit "What city?";
     hashed_answer :=
       lit "5dd272b4f316b776a7b8e3d0894b37e1e42be3d5d3b204b8a5836cc50597a6b1";
     file_path := sample_url;
     original_filename := lit "report.pdf" |}.

Definition uploaded_world : World :=
  snd (upload_file keep_name sample_upload all_fine empty_world).

Definition sample_hash : pystr :=
  lit "5dd272b4f316b776a7b8e3d0894b37e1e42be3d5d3b204b8a5836cc50597a6b1".

Definition sample_path : pystr := lit "SN123/report.pdf".

(** The same upload when the URL fetch answers without a URL. *)
Definition no_public_url : Outcomes :=
  {| on_select := SelectReturns;
     on_read := ReadReturns;
     on_upload := UploadResponds 200 (Val (lit "{}"));
     on_get_public_url := UrlResponds None;
     on_insert := Inserted (lit "None");
     on_remove := Removed;
     on_cleanup := Removed |}.

(** The insert reports failure, and the removal that follows raises. *)
Definition remove_error : exn := ExternalError (lit "storage unreachable").

Definition insert_fails_remove_raises : Outcomes :=
  {| on_select := SelectReturns;
     on_read := ReadReturns;
     on_upload := UploadResponds 200 (Val (lit "{}"));
     on_get_public_url := UrlResponds (Some sample_url);
     on_insert := NotInserted (lit "None");
     on_remove := RemoveRaises remove_error;
     on_cleanup := Removed |}.

(** The object upload raises, and so does the removal in the handler. *)
Definition upload_error : exn := ExternalError (lit "connection reset").

Definition upload_raises : Outcomes :=
  {| on_select := SelectReturns;
     on_read := ReadReturns;
     on_upload := UploadRaises upload_error;
     on_get_public_url := UrlResponds (Some sample_url);
     on_insert := Inserted (lit "None");
     on_remove := Removed;
     on_cleanup := RemoveRaises remove_error |}.



(** An upload whose security answer is set by hand to one lone surrogate,
    U+D800: a value that decoding the bytes of a form does not give. *)
Definition surrogate_upload : UploadRequest :=
  {| files_file := Some report_pdf;
     form_serialCode := Some (lit "SN123");
     form_securityQuestion := Some (lit "What city?");
     form_securityAnswer := Some [0xD800] |}.

(** The table after two uploads under [SN123] got past the check at the
    same time: a second row, with another question, answer and file. *)
Definition second_row : FileRecord :=
  {| serial_code := lit "SN123";
     security_question := lit "What pet?";
     hashed_answer :=
       lit "80f1e148f14f3b82aaec65244d7685c1096a8174d748fdc497ecd28ad41ee0b0";
     file_path := lit "https://project.supabase.co/storage/v1/object/public/uploads/SN123/notes.txt";
     original_filename := lit "notes.txt" |}.

Definition raced_world : World :=
  {| table := [sample_row; second_row]; bucket := ∅; calls := []; stdout := [] |}.

(** ** Start-up: lines 12-26 *)

(** The process environment after [load_dotenv()]: variable names to values. *)
Definition environ := gmap pystr pystr.

(** [os.getenv(name)] and [os.getenv(name, default)] *)
Definition getenv (env : environ) (name : string) : option pystr :=
  env !! lit name.
Definition getenv_default (env : environ) (name : string) (d : pystr) : pystr :=
  default d (env !! lit name).

(** What the module keeps of the environment once it is loaded. *)
Record Config := {
  SUPABASE_URL : pystr;
  SUPABASE_KEY : pystr;
  SUPABASE_STORAGE_BUCKET_NAME : pystr
}.

(** Loading the module either raises [Exception(message)] or goes on to
    create the client with the URL and the key. *)
Inductive startup_result :=
| Started (c : Config)
| StartupException (message : string).

Definition startup (env : environ) : startup_result :=
  let url := getenv env "SUPABASE_URL" in
  let key := getenv env "SUPABASE_KEY" in
  let bucket_name := getenv_default env "SUPABASE_STORAGE_BUCKET_NAME" (lit "uploads") in
  if negb (truthy_opt url) || negb (truthy_opt key) then
    StartupException "Supabase URL and Key must be set in the .env file."
  else
    Started {| SUPABASE_URL := default [] url;
               SUPABASE_KEY := default [] key;
               SUPABASE_STORAGE_BUCKET_NAME := bucket_name |}.

(** ** Invariants of the store *)




(** No two rows share a serial code. *)
Definition unique_serials (w : World) : Prop :=
  NoDup (map serial_code (table w)).

(** A string of ASCII characters. *)
Definition is_ascii (s : pystr) : Prop := Forall (fun c => c < 128) s.

(** The calls a request added to the record of the world. *)
Definition new_calls (w w' : World) (cs : list call) : Prop :=
  calls w' = calls w ++ cs.

(** ** More scenarios *)

Definition db_error : exn := ExternalError (lit "database unreachable").

(** The query for the serial code raises. *)
Definition select_raises : Outcomes :=
  {| on_select := SelectRaises db_error;
     on_read := ReadReturns;
     on_upload := UploadResponds 200 (Val (lit "{}"));
     on_get_public_url := UrlResponds (Some sample_url);
     on_insert := Inserted (lit "None");
     on_remove := Removed;
     on_cleanup := Removed |}.

(** The storage answers the upload with status 400. *)
Definition storage_rejects : Outcomes :=
  {| on_select := SelectReturns;
     on_read := ReadReturns;
     on_upload := UploadResponds 400 (Val (lit "{'error': 'Bad Request'}"));
     on_get_public_url := UrlResponds (Some sample_url);
     on_insert := Inserted (lit "None");
     on_remove := Removed;
     on_cleanup := Removed |}.

(** A second upload, under another serial code. *)
Definition notes_txt : FileStorage :=
  {| filename := Some (lit "notes.txt");
     content := [110; 111; 116; 101];
     content_type := lit "text/plain" |}.

Definition other_upload : UploadRequest :=
  {| files_file := Some notes_txt;
     form_serialCode := Some (lit "SN124");
     form_securityQuestion := Some (lit "What pet?");
     form_securityAnswer := Some (lit "Rex") |}.


(** Requests served one after the other: two uploads, the second of them
    sent twice, and a retrieval. *)
Definition sample_session : list (request * Outcomes) :=
  [(Upload sample_upload, all_fine);
   (Upload other_upload, insert_fails_remove_raises);
   (Upload other_upload, all_fine);
   (Upload other_upload, all_fine);
   (Retrieve (retrieval (lit "SN123") (lit "Paris")), all_fine)].

(** An environment with the URL and the key, and no bucket name. *)
Definition sample_environ : environ :=
  {[ lit "SUPABASE_URL" := lit "https://project.supabase.co";
     lit "SUPABASE_KEY" := lit "secret" ]}.

(** Unfolding the statements of a handler. *)
Ltac run :=
  cbv [store_file store_file_body cleanup try_except bind ret raise lift
       modify gets issue print print_cleanup_failed storage_upload
       storage_get_public_url
       table_insert storage_remove table_select after].

(** * Properties *)

(** ** Test vectors: UTF-8 and SHA-256 *)

Example sha_abc :
  hash_answer (lit "abc") =
  Val (lit "ba7816bf8f01cfea414140de5dae2223b00361a396177a9cb410ff61f20015ad").
Proof. vm_compute. reflexivity. Qed.

Example sha_empty :
  SHA256.hexdigest [] =
  lit "e3b0c44298fc1c149afbf4c8996fb92427ae41e4649b934ca495991b7852b855".
Proof. vm_compute. reflexivity. Qed.

Example sha_two_blocks :
  hash_answer (lit "abcdbcdecdefdefgefghfghighijhijkijkljklmklmnlmnomnopnopq") =
  Val (lit "248d6a61d20638b8e5c026930c3e6039a33ce45964ff2167f6ecedd419db06c1").
Proof. vm_compute. reflexivity. Qed.

Example utf8_samples :
  encode [0x41; 0xE9; 0x20AC; 0x1F600] =
  Val [0x41; 0xC3; 0xA9; 0xE2; 0x82; 0xAC; 0xF0; 0x9F; 0x98; 0x80].
Proof. reflexivity. Qed.

Example utf8_surrogate : encode [0x41; 0xD800] = Raised (UnicodeEncodeError 1).
Proof. reflexivity. Qed.

(** ** The allow-list *)

Lemma contains_elem_of (c : N) (s : pystr) : contains c s = true ↔ c ∈ s.
Proof.
  unfold contains. induction s as [|x s IH]; simpl.
  - split; [discriminate | intros H; inversion H].
  - rewrite orb_true_iff, IH, elem_of_cons, N.eqb_eq. tauto.
Qed.

Lemma split_last_None (sep : N) (s : pystr) :
  split_last sep s = None ↔ sep ∉ s.
Proof.
  induction s as [|x s IH]; simpl.
  - split; [intros _ H; inversion H | reflexivity].
  - rewrite not_elem_of_cons. destruct (split_last sep s) as [[h t]|].
    + split; [discriminate | intros [_ H]]. apply IH in H. discriminate.
    + destruct (N.eqb_spec x sep) as [->|Hne].
      * split; [discriminate | intros [H _]; congruence].
      * split; [intros _ | reflexivity]. split; [congruence | by apply IH].
Qed.

Lemma split_last_Some (sep : N) (s h t : pystr) :
  split_last sep s = Some (h, t) ↔ s = h ++ (sep :: t) ∧ sep ∉ t.
Proof.
  revert h. induction s as [|x s IH]; intros h; simpl.
  - split; [discriminate | intros [H _]; by destruct h].
  - destruct (split_last sep s) as [[h' t']|] eqn:Hs.
    + split.
      * intros [= <- <-]. destruct (proj1 (IH h') eq_refl) as [-> Ht]. done.
      * intros [Heq Ht]. destruct h as [|y h]; simpl in Heq.
        -- injection Heq as -> ->. apply split_last_None in Ht. congruence.
        -- injection Heq as -> Heq.
           assert (Some (h', t') = Some (h, t)) as [= -> ->]
             by (apply IH; done).
           done.
    + apply split_last_None in Hs. destruct (N.eqb_spec x sep) as [->|Hne].
      * split.
        -- intros [= <- <-]. done.
        -- intros [Heq Ht]. destruct h as [|y h]; simpl in Heq.
           ++ by injection Heq as ->.
           ++ injection Heq as -> ->. exfalso. apply Hs.
              rewrite elem_of_app, elem_of_cons. auto.
      * split; [discriminate|]. intros [Heq Ht].
        destruct h as [|y h]; simpl in Heq; injection Heq as -> ->.
        -- done.
        -- exfalso. apply Hs. rewrite elem_of_app, elem_of_cons. auto.
Qed.

Lemma allowed_extensions_listed (e : pystr) :
  e ∈ ALLOWED_EXTENSIONS ↔
  e ∈ map lit ["pdf"; "txt"; "png"; "jpg"; "jpeg";
               "gif"; "docx"; "doc"; "xlsx"; "xls"]%string.
Proof.
  unfold ALLOWED_EXTENSIONS. cbn [map].
  rewrite !elem_of_union, !elem_of_singleton, !elem_of_cons, elem_of_nil.
  tauto.
Qed.

Lemma allowed_file_total (f : pystr) :
  allowed_file f =
  Val match split_last dot f with
      | Some (_, ext) => bool_decide (lower ext ∈ ALLOWED_EXTENSIONS)
      | None => false
      end.
Proof.
  unfold allowed_file, rsplit1.
  destruct (split_last dot f) as [[h t]|] eqn:Hs.
  - assert (contains dot f = true) as ->; [|done].
    apply contains_elem_of. apply split_last_Some in Hs as [-> _].
    rewrite elem_of_app, elem_of_cons. auto.
  - apply split_last_None in Hs.
    destruct (contains dot f) eqn:Hc; [|done].
    apply contains_elem_of in Hc. done.
Qed.

Example allowed_report : allowed_file (lit "report.pdf") = Val true.
Proof. vm_compute. reflexivity. Qed.
Example allowed_upper : allowed_file (lit "a.b.JPeG") = Val true.
Proof. vm_compute. reflexivity. Qed.
Example allowed_exe : allowed_file (lit "malware.exe") = Val false.
Proof. vm_compute. reflexivity. Qed.
Example allowed_nodot : allowed_file (lit "pdf") = Val false.
Proof. vm_compute. reflexivity. Qed.
Example allowed_enddot : allowed_file (lit "pdf.") = Val false.
Proof. vm_compute. reflexivity. Qed.
Example allowed_hidden : allowed_file (lit ".pdf") = Val true.
Proof. vm_compute. reflexivity. Qed.

(** C8. For every filename [f], [allowed_file f] is [True] exactly when [f]
    contains a ['.'] and the lowercased suffix after the last ['.'] is one of
    [pdf, txt, png, jpg, jpeg, gif, docx, doc, xlsx, xls]; it never raises,
    and a filename without ['.'] or ending in ['.'] is rejected. *)
Theorem allowed_file_iff (f : pystr) :
  (allowed_file f = Val true ∨ allowed_file f = Val false) ∧
  (allowed_file f = Val true ↔
     dot ∈ f ∧
     ∃ h ext, f = h ++ (dot :: ext) ∧ (dot ∉ ext) ∧
       lower ext ∈ map lit ["pdf"; "txt"; "png"; "jpg"; "jpeg";
                            "gif"; "docx"; "doc"; "xlsx"; "xls"]%string) ∧
  (dot ∉ f → allowed_file f = Val false) ∧
  (∀ h, f = h ++ [dot] → allowed_file f = Val false).
Proof.
  rewrite allowed_file_total. split; [|split; [split|split]].
  - destruct (split_last dot f) as [[h t]|]; [|by right].
    destruct (bool_decide _); auto.
  - destruct (split_last dot f) as [[h t]|] eqn:Hs; [|discriminate].
    intros [= Hd]. apply bool_decide_eq_true in Hd.
    apply split_last_Some in Hs as [-> Ht]. split.
    + rewrite elem_of_app, elem_of_cons. auto.
    + exists h, t. by rewrite <- allowed_extensions_listed.
  - intros [_ (h & ext & Hf & Hext & Hin)].
    assert (split_last dot f = Some (h, ext)) as -> by by apply split_last_Some.
    f_equal. apply bool_decide_eq_true. by apply allowed_extensions_listed.
  - intros Hn. apply split_last_None in Hn. by rewrite Hn.
  - intros h ->.
    assert (split_last dot (h ++ [dot]) = Some (h, [])) as ->.
    { apply split_last_Some. split; [done | apply not_elem_of_nil]. }
    done.
Qed.

Lemma allowed_file_iff_witness :
  allowed_file (lit "report.pdf") = Val true ∧
  allowed_file (lit "report") = Val false ∧
  allowed_file (lit "report.") = Val false.
Proof.
  split; [|split].
  - apply (allowed_file_iff (lit "report.pdf")). split.
    + apply contains_elem_of. reflexivity.
    + exists (lit "report"), (lit "pdf"). split; [reflexivity|]. split.
      * intros H. apply contains_elem_of in H. discriminate.
      * apply list_elem_of_here.
  - apply (allowed_file_iff (lit "report")).
    intros H. apply contains_elem_of in H. discriminate.
  - apply (proj2 (proj2 (proj2 (allowed_file_iff (lit "report.")))) (lit "report")).
    reflexivity.
Defined.

(** ** The digest of the security answer *)

Lemma hex_digit_is_hex (d : N) : d < 16 → is_hex_char (SHA256.hex_digit d) = true.
Proof.
  intros Hd. unfold SHA256.hex_digit, is_hex_char.
  destruct (N.ltb_spec d 10).
  - apply orb_true_iff. left. apply andb_true_iff. split; apply N.leb_le; lia.
  - apply orb_true_iff. right. apply andb_true_iff. split; apply N.leb_le; lia.
Qed.

Lemma hex32_length (x : N) : length (SHA256.hex32 x) = 8%nat.
Proof. reflexivity. Qed.

Lemma hex32_is_hex (x : N) : Forall (fun c => is_hex_char c = true) (SHA256.hex32 x).
Proof.
  unfold SHA256.hex32. apply List.Forall_map. apply List.Forall_forall.
  intros i _. apply hex_digit_is_hex.
  change 15 with (N.ones 4). rewrite N.land_ones.
  apply N.mod_lt. discriminate.
Qed.

Lemma hexdigest_length (msg : bytes) : length (SHA256.hexdigest msg) = 64%nat.
Proof.
  unfold SHA256.hexdigest. cbv zeta.
  rewrite !length_app, !hex32_length. reflexivity.
Qed.

Lemma hexdigest_is_hex (msg : bytes) :
  Forall (fun c => is_hex_char c = true) (SHA256.hexdigest msg).
Proof.
  unfold SHA256.hexdigest. cbv zeta.
  repeat (apply Forall_app; split); apply hex32_is_hex.
Qed.

Lemma encode_from_total (s : pystr) (pos : nat) :
  Forall (fun c => is_surrogate c = false) s → ∃ b, encode_from pos s = Val b.
Proof.
  intros Hs. revert pos. induction Hs as [|c s Hc _ IH]; intros pos; simpl.
  - by exists [].
  - rewrite Hc. destruct (IH (S pos)) as [b ->]. by eexists.
Qed.


(** C9. Hashing the answer is a function of the answer, so the digest
    computed at upload and the digest computed at retrieval are the same for
    the same answer; every digest it returns is 64 characters, each one of
    [0-9a-f]; and it returns a digest for every string that UTF-8 can encode
    (every string without a lone surrogate). *)
Theorem hash_answer_digest (x : pystr) :
  (∀ y, x = y → hash_answer x = hash_answer y) ∧
  (∀ d, hash_answer x = Val d →
     length d = 64%nat ∧ Forall (fun c => is_hex_char c = true) d) ∧
  (Forall (fun c => is_surrogate c = false) x → ∃ d, hash_answer x = Val d).
Proof.
  split; [by intros y <-|]. split.
  - unfold hash_answer. intros d. destruct (encode x); [|discriminate].
    intros [= <-]. split; [apply hexdigest_length | apply hexdigest_is_hex].
  - intros Hx. unfold hash_answer, encode.
    destruct (encode_from_total x 0 Hx) as [b ->]. by eexists.
Qed.

Lemma hash_answer_digest_witness :
  length (SHA256.hexdigest (lit "Paris")) = 64%nat ∧
  ∃ d, hash_answer (lit "Paris") = Val d.
Proof.
  split.
  - apply (proj1 (proj2 (hash_answer_digest (lit "Paris")))). reflexivity.
  - apply (proj2 (proj2 (hash_answer_digest (lit "Paris")))).
    repeat constructor.
Defined.

(** ** The handlers, step by step *)

Section Steps.

Variable secure_filename : pystr → pystr.

Lemma upload_file_rejected (req : UploadRequest) (env : Outcomes) (w : World) :
  passes_validation req = false →
  ∃ msg, upload_file secure_filename req env w =
         (Val (jsonify [("error"%string, [Txt msg])] 400), w).
Proof.
  unfold passes_validation, upload_file.
  destruct (files_file req) as [file|]; [|by eexists].
  destruct (forallb _ _); [|by eexists]. simpl.
  rewrite allowed_file_total. unfold bind, lift. simpl. intros ->. by eexists.
Qed.

Lemma upload_file_validated (req : UploadRequest) (env : Outcomes) (w : World)
    (file : FileStorage) :
  files_file req = Some file → passes_validation req = true →
  upload_file secure_filename req env w =
  after (check_serial_code env (serial_of req)) (fun _ =>
    answer_hash <- lift (hash_answer (answer_of req)) ;;
    after (store_file env file (serial_of req) (question_of req) answer_hash
             (secure_filename (filename_of req)) (storage_path secure_filename req))
      (fun file_url =>
         ret (jsonify [("message"%string, [Txt "File uploaded successfully!"]);
                       ("fileUrl"%string, [Str file_url])] 201))) w.
Proof.
  unfold passes_validation, upload_file, storage_path, filename_of.
  intros ->. simpl option_bind. cbn [mbind option_bind].
  destruct (forallb _ _); [|discriminate]. simpl.
  rewrite allowed_file_total. unfold bind at 1, lift at 1. simpl.
  intros ->. reflexivity.
Qed.

Lemma check_serial_code_eq (env : Outcomes) (s : pystr) (w : World) :
  check_serial_code env s w =
  (Val match on_select env with
       | SelectReturns =>
         match rows_of s w with
         | [] => Next tt
         | _ :: _ =>
           Return (jsonify
             [("error"%string,
               [Txt "Serial code already exists. Please choose a different one."])] 409)
         end
       | SelectRaises e =>
         Return (jsonify
           [("error"%string, [Txt "Database error during serial code check: "; StrOf e])]
           500)
       end,
   called (TableSelect s) w).
Proof.
  unfold check_serial_code, try_except, table_select, bind, issue, modify, rows_of.
  destruct (on_select env); simpl; [|reflexivity].
  destruct (filter _ _); reflexivity.
Qed.

End Steps.

(** ** Upload with a serial code that is taken *)

Lemma rows_of_elem (s : pystr) (w : World) (r : FileRecord) :
  r ∈ table w → serial_code r = s → ∃ r0 rest, rows_of s w = r0 :: rest.
Proof.
  intros Hr Hs. unfold rows_of.
  destruct (filter _ _) as [|r0 rest] eqn:Hf; [|by eauto].
  assert (r ∈ filter (fun r => serial_code r = s) (table w)) as Hin
    by (apply list_elem_of_filter; done).
  rewrite Hf in Hin. inversion Hin.
Qed.

(** C2. When the serial code of an upload request already has a row, the
    request changes nothing in the store: no row is inserted, no object is
    uploaded or removed, and the only call made, if any, is the query for the
    serial code. When the request is valid and the query answers, the
    response is the duplicate error with status 409. *)
Theorem upload_duplicate_serial_code (secure_filename : pystr → pystr)
    (req : UploadRequest) (env : Outcomes) (w : World) (s : pystr) (r : FileRecord) :
  form_serialCode req = Some s → r ∈ table w → serial_code r = s →
  let result := upload_file secure_filename req env w in
  (snd result = w ∨ snd result = called (TableSelect s) w) ∧
  table (snd result) = table w ∧ bucket (snd result) = bucket w ∧
  (passes_validation req = true → on_select env = SelectReturns →
   result =
   (Val (jsonify
      [("error"%string,
        [Txt "Serial code already exists. Please choose a different one."])] 409),
    called (TableSelect s) w)).
Proof.
  intros Hs Hr Hrs result.
  destruct (rows_of_elem s w r Hr Hrs) as (r0 & rest & Hrows).
  assert (serial_of req = s) as Hserial by (unfold serial_of; by rewrite Hs).
  destruct (passes_validation req) eqn:Hv.
  - assert (∃ file, files_file req = Some file) as [file Hfile].
    { unfold passes_validation in Hv. destruct (files_file req); [by eauto|done]. }
    assert (result =
      (Val match on_select env with
           | SelectReturns =>
             jsonify [("error"%string,
               [Txt "Serial code already exists. Please choose a different one."])] 409
           | SelectRaises e =>
             jsonify [("error"%string,
               [Txt "Database error during serial code check: "; StrOf e])] 500
           end, called (TableSelect s) w)) as ->.
    { subst result. rewrite (upload_file_validated _ _ _ _ file Hfile Hv).
      unfold after, bind at 1. rewrite check_serial_code_eq, Hserial, Hrows.
      destruct (on_select env); reflexivity. }
    simpl. split; [by right|]. split; [done|]. split; [done|].
    intros _ ->. reflexivity.
  - destruct (upload_file_rejected secure_filename req env w Hv) as [msg Hrej].
    subst result. rewrite Hrej. simpl. split; [by left|]. done.
Qed.

Lemma upload_duplicate_serial_code_witness :
  upload_file keep_name sample_upload all_fine uploaded_world =
  (Val (jsonify
     [("error"%string,
       [Txt "Serial code already exists. Please choose a different one."])] 409),
   called (TableSelect (lit "SN123")) uploaded_world).
Proof.
  apply (upload_duplicate_serial_code keep_name sample_upload all_fine
           uploaded_world (lit "SN123") sample_row).
  - reflexivity.
  - vm_compute. apply list_elem_of_here.
  - reflexivity.
  - vm_compute. reflexivity.
  - reflexivity.
Defined.

(** ** Storing the file: the [try] block and its handler *)

(** The handler issues one removal and prints when that removal raises. It
    answers 500 with the exception it handles, unless the line cannot be
    printed: then the exception of [print] leaves the handler. *)
Lemma cleanup_eq (env : Outcomes) (path : pystr) (e : exn) (w : World) :
  cleanup env path e w =
  (match handled env path e with
   | Val resp => Val (Return resp)
   | Raised e' => Raised e'
   end, cleanup_world env path w).
Proof.
  unfold handled, cleanup_world, cleanup_line. run.
  destruct (on_cleanup env) as [| |cleanup_e]; try reflexivity. simpl.
  destruct (line_surrogate path cleanup_e); reflexivity.
Qed.

Lemma handled_cases (env : Outcomes) (path : pystr) (e : exn) :
  handled env path e =
    Val (error_response [Txt "Failed to upload file or metadata: "; StrOf e] 500) ∨
  ∃ position cleanup_e,
    on_cleanup env = RemoveRaises cleanup_e ∧
    line_surrogate path cleanup_e = Some position ∧
    handled env path e = Raised (UnicodeEncodeError position).
Proof.
  unfold handled. destruct (on_cleanup env) as [| |cleanup_e]; auto.
  destruct (line_surrogate path cleanup_e) eqn:Hline; eauto 10.
Qed.


(** The cases of the handler, for the proofs below. *)
Ltac handled_in H :=
  rewrite cleanup_eq in H;
  match type of H with
  | context [handled ?env ?p ?e] =>
    let Hh := fresh "Hhandled" in
    destruct (handled_cases env p e) as [Hh | (? & ? & _ & _ & Hh)];
    rewrite Hh in H
  end.

Ltac cleanup_cases env :=
  unfold handled, cleanup_world;
  destruct (on_cleanup env);
  [ | | match goal with
        | |- context [line_surrogate ?p ?c] => destruct (line_surrogate p c)
        end ].

Section Body.

Variables (env : Outcomes) (file : FileStorage).
Variables (serial question answer_hash name path : pystr).

Lemma store_file_body_eq (w : World) :
  store_file_body env file serial question answer_hash name path w =
  match on_read env with
  | ReadRaises e => (Raised e, w)
  | ReadReturns =>
    match on_upload env with
    | UploadRaises e => (Raised e, after_upload_call file path w)
    | UploadResponds code json =>
      if code =? 200 then
        match on_get_public_url env with
        | UrlRaises e => (Raised e, after_url_call file path w)
        | UrlResponds publicUrl =>
          if truthy_opt publicUrl then
            let url := default [] publicUrl in
            let row := new_row serial question answer_hash url name in
            match on_insert env with
            | InsertRaises e => (Raised e, after_insert_call file path row w)
            | Inserted _ =>
              (Val (Next url),
               set_table (fun t => t ++ [row]) (after_insert_call file path row w))
            | NotInserted count =>
              let failed := Return (jsonify
                [("error"%string, [Txt "Failed to store file metadata: "; Str count])]
                500) in
              match on_remove env with
              | RemoveRaises e => (Raised e, after_remove_call file path row w)
              | Removed =>
                (Val failed, set_bucket (delete path) (after_remove_call file path row w))
              | NotRemoved => (Val failed, after_remove_call file path row w)
              end
            end
          else
            (Val (Return (jsonify
               [("error"%string,
                 [Txt "Could not get public URL for uploaded file."])] 500)),
             after_url_call file path w)
        end
      else
        match json with
        | Val j =>
          (Val (Return (jsonify
             [("error"%string, [Txt "Failed to upload file to storage: "; Str j])]
             500)), after_upload_call file path w)
        | Raised e => (Raised e, after_upload_call file path w)
        end
    end
  end.
Proof.
  run. destruct (on_read env); [|reflexivity].
  destruct (on_upload env) as [code json|e]; [|reflexivity].
  destruct (code =? 200) eqn:Hcode; simpl; rewrite Hcode; simpl;
    [|destruct json; reflexivity].
  destruct (on_get_public_url env) as [publicUrl|e]; [|reflexivity].
  destruct (truthy_opt publicUrl); simpl; [|reflexivity].
  destruct (on_insert env); simpl; try reflexivity.
  destruct (on_remove env); reflexivity.
Qed.

End Body.

Section Stored.

Variable secure_filename : pystr → pystr.
Variables (req : UploadRequest) (env : Outcomes) (w : World).
Variables (file : FileStorage) (answer_hash : pystr).
Hypothesis Hreach : reaches_storage req env w file answer_hash.

(** Past the check of the serial code, the upload is the [try] block run
    after the query, and then its handler or the 201 response. *)
Lemma upload_file_checked :
  upload_file secure_filename req env w =
  match store_file_body env file (serial_of req) (question_of req) answer_hash
          (secure_filename (filename_of req)) (storage_path secure_filename req)
          (called (TableSelect (serial_of req)) w) with
  | (Val (Return resp), w1) => (Val resp, w1)
  | (Val (Next file_url), w1) =>
    (Val (jsonify [("message"%string, [Txt "File uploaded successfully!"]);
                   ("fileUrl"%string, [Str file_url])] 201), w1)
  | (Raised e, w1) =>
    (handled env (storage_path secure_filename req) e,
     cleanup_world env (storage_path secure_filename req) w1)
  end.
Proof.
  destruct Hreach as (Hfile & Hvalid & Hselect & Hrows & Hhash).
  rewrite (upload_file_validated _ _ _ _ file Hfile Hvalid).
  unfold after at 1, bind at 1. rewrite check_serial_code_eq, Hselect, Hrows.
  unfold bind at 1, lift at 1. rewrite Hhash.
  unfold after, bind, store_file, try_except.
  destruct (store_file_body _ _ _ _ _ _ _ _) as [[[resp|url]|e] w1]; try reflexivity.
  rewrite cleanup_eq. by destruct (handled _ _ _).
Qed.

End Stored.

(** ** Upload: the public URL is missing *)

(** C5. When the object is uploaded and no public URL comes back, the upload
    fails with status 500 and the message of the missing URL; the calls made
    are the query, the upload and the URL fetch, so no removal is attempted,
    the object stays in the bucket and no row is written. When instead the
    URL is there and the insert reports failure, a removal of the object is
    issued. *)
Theorem upload_without_public_url (secure_filename : pystr → pystr)
    (req : UploadRequest) (env : Outcomes) (w : World) (file : FileStorage)
    (answer_hash : pystr) (json : outcome pystr) (publicUrl : option pystr) :
  reaches_storage req env w file answer_hash →
  on_read env = ReadReturns →
  on_upload env = UploadResponds 200 json →
  on_get_public_url env = UrlResponds publicUrl →
  truthy_opt publicUrl = false →
  let path := storage_path secure_filename req in
  let result := upload_file secure_filename req env w in
  fst result =
    Val (error_response [Txt "Could not get public URL for uploaded file."] 500) ∧
  calls (snd result) =
    calls w ++ [TableSelect (serial_of req);
                StorageUpload path (content file) (content_type file);
                StorageGetPublicUrl path] ∧
  (∀ paths, StorageRemove paths ∈ calls (snd result) → StorageRemove paths ∈ calls w) ∧
  bucket (snd result) !! path = Some (content file) ∧
  table (snd result) = table w ∧
  (∀ env2 url count,
     reaches_storage req env2 w file answer_hash →
     on_read env2 = ReadReturns →
     on_upload env2 = UploadResponds 200 json →
     on_get_public_url env2 = UrlResponds (Some url) → truthy url = true →
     on_insert env2 = NotInserted count →
     StorageRemove [path] ∈ calls (snd (upload_file secure_filename req env2 w))).
Proof.
  intros Hreach Hread Hupload Hurl Hnone path result.
  assert (result =
    (Val (error_response [Txt "Could not get public URL for uploaded file."] 500),
     after_url_call file path (called (TableSelect (serial_of req)) w))) as Hres.
  { subst result. rewrite (upload_file_checked _ _ _ _ _ _ Hreach).
    rewrite store_file_body_eq, Hread, Hupload, Hurl, Hnone. reflexivity. }
  assert (calls (snd result) =
    calls w ++ [TableSelect (serial_of req);
                StorageUpload path (content file) (content_type file);
                StorageGetPublicUrl path]) as Hcalls.
  { rewrite Hres. simpl. by rewrite <- !app_assoc. }
  split; [by rewrite Hres|]. split; [exact Hcalls|]. split; [|split; [|split]].
  - intros paths. rewrite Hcalls, elem_of_app, !elem_of_cons, elem_of_nil.
    intros [?|[?|[?|[?|[]]]]]; done.
  - rewrite Hres. simpl. apply lookup_insert_eq.
  - by rewrite Hres.
  - intros env2 url count Hreach2 Hread2 Hupload2 Hurl2 Htruthy Hinsert.
    rewrite (upload_file_checked _ _ _ _ _ _ Hreach2).
    rewrite store_file_body_eq, Hread2, Hupload2, Hurl2, Hinsert. simpl.
    rewrite Htruthy.
    destruct (on_remove env2); simpl.
    + rewrite elem_of_app. right. apply list_elem_of_here.
    + rewrite elem_of_app. right. apply list_elem_of_here.
    + cleanup_cases env2; simpl; rewrite elem_of_app; right;
        apply list_elem_of_here.
Qed.

Lemma sample_reaches_storage (env : Outcomes) :
  on_select env = SelectReturns →
  reaches_storage sample_upload env empty_world report_pdf sample_hash.
Proof.
  intros Hselect. split; [reflexivity|]. split; [vm_compute; reflexivity|].
  split; [exact Hselect|]. split; [reflexivity|]. vm_compute. reflexivity.
Qed.

Lemma upload_without_public_url_witness :
  fst (upload_file keep_name sample_upload no_public_url empty_world) =
    Val (error_response [Txt "Could not get public URL for uploaded file."] 500) ∧
  calls (snd (upload_file keep_name sample_upload no_public_url empty_world)) =
    [TableSelect (lit "SN123");
     StorageUpload sample_path (content report_pdf) (content_type report_pdf);
     StorageGetPublicUrl sample_path].
Proof.
  destruct (upload_without_public_url keep_name sample_upload no_public_url
              empty_world report_pdf sample_hash (Val (lit "{}")) None)
    as (Hfst & Hcalls & _).
  - apply sample_reaches_storage. reflexivity.
  - reflexivity.
  - reflexivity.
  - reflexivity.
  - reflexivity.
  - split; [exact Hfst | exact Hcalls].
Defined.

(** ** Upload: exceptions *)



Lemma upload_hash_raises (secure_filename : pystr → pystr) (req : UploadRequest)
    (env : Outcomes) (w : World) (file : FileStorage) (e : exn) :
  files_file req = Some file → passes_validation req = true →
  on_select env = SelectReturns → rows_of (serial_of req) w = [] →
  hash_answer (answer_of req) = Raised e →
  upload_file secure_filename req env w =
  (Raised e, called (TableSelect (serial_of req)) w).
Proof.
  intros Hfile Hvalid Hselect Hrows Hhash.
  rewrite (upload_file_validated _ _ _ _ file Hfile Hvalid).
  unfold after at 1, bind at 1. rewrite check_serial_code_eq, Hselect, Hrows.
  unfold bind at 1, lift at 1. rewrite Hhash. reflexivity.
Qed.







(** Hashing comes before the [try] block. With the answer set by hand to a
    lone surrogate, which no parsed form carries, its exception leaves
    [upload_file] after the query and before any call to the storage. *)
Lemma hashing_exception_escapes_upload :
  hash_answer (answer_of surrogate_upload) = Raised (UnicodeEncodeError 0) ∧
  fst (upload_file keep_name surrogate_upload all_fine empty_world)
    = Raised (UnicodeEncodeError 0) ∧
  calls (snd (upload_file keep_name surrogate_upload all_fine empty_world))
    = [TableSelect (lit "SN123")].
Proof. vm_compute. repeat split. Qed.

(** ** Upload: the insert fails after the object was uploaded *)

Section InsertFails.

Variable secure_filename : pystr → pystr.
Variables (req : UploadRequest) (env : Outcomes) (w : World).
Variables (file : FileStorage) (answer_hash : pystr).
Variables (json : outcome pystr) (url : pystr).
Hypothesis Hreach : reaches_storage req env w file answer_hash.
Hypothesis Hread : on_read env = ReadReturns.
Hypothesis Hupload : on_upload env = UploadResponds 200 json.
Hypothesis Hurl : on_get_public_url env = UrlResponds (Some url).
Hypothesis Htruthy : truthy url = true.

Let path := storage_path secure_filename req.
Let row := new_row (serial_of req) (question_of req) answer_hash url
             (secure_filename (filename_of req)).
Let result := upload_file secure_filename req env w.
Let calls_to_insert : list call :=
  [TableSelect (serial_of req);
   StorageUpload path (content file) (content_type file);
   StorageGetPublicUrl path;
   TableInsert row].

(** An insert that returns an empty data, followed by a removal that
    returns, whether or not it removed the object: the response is the
    metadata error of line 105. A removal that did not remove leaves no
    trace: nothing is printed. *)
Lemma insert_fails_removal_returns (count : pystr) :
  on_insert env = NotInserted count →
  on_remove env = Removed ∨ on_remove env = NotRemoved →
  fst result =
    Val (error_response [Txt "Failed to store file metadata: "; Str count] 500) ∧
  calls (snd result) = calls w ++ calls_to_insert ++ [StorageRemove [path]] ∧
  stdout (snd result) = stdout w ∧
  table (snd result) = table w.
Proof.
  intros Hinsert Hremove. subst result.
  rewrite (upload_file_checked _ _ _ _ _ _ Hreach).
  rewrite store_file_body_eq, Hread, Hupload, Hurl, Hinsert. simpl.
  rewrite Htruthy.
  destruct Hremove as [-> | ->]; simpl; rewrite <- !app_assoc; done.
Qed.


End InsertFails.



(** ** The security question and the retrieval *)

Lemma get_security_question_eq (s : pystr) (env : Outcomes) (w : World) :
  truthy s = true →
  get_security_question (question_for s) env w =
  (Val match on_select env with
       | SelectReturns =>
         match rows_of s w with
         | row :: _ =>
           jsonify [("securityQuestion"%string, [Str (security_question row)])] 200
         | [] => error_response [Txt "Serial code not found"] 404
         end
       | SelectRaises e => error_response [Txt "Database error: "; StrOf e] 500
       end,
   called (TableSelect s) w).
Proof.
  intros Hs. unfold get_security_question, question_for, rows_of. simpl.
  rewrite Hs. simpl. run.
  destruct (on_select env); [|reflexivity]. simpl.
  destruct (filter _ _); reflexivity.
Qed.

Lemma retrieve_file_info_eq (s a : pystr) (env : Outcomes) (w : World) :
  truthy s = true → truthy a = true →
  retrieve_file_info (retrieval s a) env w =
  (Val match on_select env with
       | SelectReturns =>
         match rows_of s w with
         | file_data :: _ =>
           match hash_answer a with
           | Val provided_answer_hash =>
             if bool_decide (hashed_answer file_data = provided_answer_hash)
             then verified file_data
             else error_response [Txt "Incorrect security answer"] 403
           | Raised e => error_response [Txt "Database error: "; StrOf e] 500
           end
         | [] => error_response [Txt "Invalid serial code"] 404
         end
       | SelectRaises e => error_response [Txt "Database error: "; StrOf e] 500
       end,
   called (TableSelect s) w).
Proof.
  intros Hs Ha. unfold retrieve_file_info, retrieval, rows_of. simpl.
  rewrite Hs, Ha. simpl. run.
  destruct (on_select env); [|reflexivity]. simpl.
  destruct (filter _ _) as [|file_data rest]; [reflexivity|]. simpl.
  destruct (hash_answer a) as [h|e]; [|reflexivity]. unfold str_eqb.
  destruct (bool_decide _); reflexivity.
Qed.

(** C10. When the query for a serial code returns several rows, the first
    one decides: the security question returned is that of the first row,
    the hash of the answer is compared with the hash of the first row, and
    the download URL and the filename returned are those of the first row.
    The rows after the first change nothing, in this world or in any other
    whose query starts with the same row. *)
Theorem first_row_decides (s a : pystr) (env : Outcomes) (w : World)
    (first : FileRecord) (others : list FileRecord) :
  truthy s = true → truthy a = true →
  on_select env = SelectReturns →
  rows_of s w = first :: others →
  fst (get_security_question (question_for s) env w) =
    Val (jsonify [("securityQuestion"%string, [Str (security_question first)])] 200) ∧
  (hash_answer a = Val (hashed_answer first) →
   fst (retrieve_file_info (retrieval s a) env w) = Val (verified first)) ∧
  (∀ h, hash_answer a = Val h → h ≠ hashed_answer first →
   fst (retrieve_file_info (retrieval s a) env w) =
     Val (error_response [Txt "Incorrect security answer"] 403)) ∧
  (∀ w' others', rows_of s w' = first :: others' →
   fst (get_security_question (question_for s) env w') =
     fst (get_security_question (question_for s) env w) ∧
   fst (retrieve_file_info (retrieval s a) env w') =
     fst (retrieve_file_info (retrieval s a) env w)).
Proof.
  intros Hs Ha Hselect Hrows.
  rewrite get_security_question_eq, retrieve_file_info_eq by done.
  rewrite Hselect, Hrows. simpl. split; [reflexivity|]. split; [|split].
  - intros ->. by rewrite bool_decide_eq_true_2.
  - intros h -> Hne. by rewrite bool_decide_eq_false_2.
  - intros w' others' Hrows'.
    rewrite get_security_question_eq, retrieve_file_info_eq by done.
    rewrite Hselect, Hrows'. done.
Qed.

Lemma first_row_decides_witness :
  fst (get_security_question (question_for (lit "SN123")) all_fine raced_world) =
    Val (jsonify [("securityQuestion"%string, [Str (lit "What city?")])] 200) ∧
  fst (retrieve_file_info (retrieval (lit "SN123") (lit "Paris")) all_fine raced_world) =
    Val (verified sample_row) ∧
  fst (retrieve_file_info (retrieval (lit "SN123") (lit "Rex")) all_fine raced_world) =
    Val (error_response [Txt "Incorrect security answer"] 403).
Proof.
  assert (rows_of (lit "SN123") raced_world = [sample_row; second_row]) as Hrows
    by (vm_compute; reflexivity).
  destruct (first_row_decides (lit "SN123") (lit "Paris") all_fine raced_world
              sample_row [second_row] eq_refl eq_refl eq_refl Hrows)
    as (Hquestion & Hright & _).
  destruct (first_row_decides (lit "SN123") (lit "Rex") all_fine raced_world
              sample_row [second_row] eq_refl eq_refl eq_refl Hrows)
    as (_ & _ & Hwrong & _).
  split; [exact Hquestion|]. split.
  - apply Hright. vm_compute. reflexivity.
  - apply (Hwrong (hashed_answer second_row)).
    + vm_compute. reflexivity.
    + vm_compute. discriminate.
Defined.

Lemma rows_of_unknown (s : pystr) (w : World) :
  (∀ r, r ∈ table w → serial_code r ≠ s) → rows_of s w = [].
Proof.
  intros Hnone. unfold rows_of.
  destruct (filter _ _) as [|r rest] eqn:Hf; [reflexivity|].
  assert (r ∈ filter (fun r => serial_code r = s) (table w)) as Hin
    by (rewrite Hf; apply list_elem_of_here).
  apply list_elem_of_filter in Hin as [Hs Hr]. by destruct (Hnone r Hr).
Qed.

(** C6. For a stored record and an answer whose hash differs from the
    stored hash, retrieval fails with the incorrect-answer error, status 403.
    The response does not depend on the stored [file_path] or
    [original_filename]: with any other values in their place the response
    is the same. *)
Theorem wrong_answer_reveals_nothing (s a : pystr) (env : Outcomes) (w : World)
    (r : FileRecord) (others : list FileRecord) (h : pystr) :
  truthy s = true → truthy a = true →
  on_select env = SelectReturns →
  rows_of s w = r :: others →
  hash_answer a = Val h → h ≠ hashed_answer r →
  fst (retrieve_file_info (retrieval s a) env w) =
    Val (error_response [Txt "Incorrect security answer"] 403) ∧
  (∀ w' path' name' others',
     rows_of s w' =
       {| serial_code := serial_code r;
          security_question := security_question r;
          hashed_answer := hashed_answer r;
          file_path := path';
          original_filename := name' |} :: others' →
     fst (retrieve_file_info (retrieval s a) env w') =
     fst (retrieve_file_info (retrieval s a) env w)).
Proof.
  intros Hs Ha Hselect Hrows Hhash Hne.
  rewrite retrieve_file_info_eq by done.
  rewrite Hselect, Hrows, Hhash. simpl.
  rewrite bool_decide_eq_false_2 by done. split; [reflexivity|].
  intros w' path' name' others' Hrows'.
  rewrite retrieve_file_info_eq by done.
  rewrite Hselect, Hrows', Hhash. simpl.
  by rewrite bool_decide_eq_false_2.
Qed.

Lemma wrong_answer_reveals_nothing_witness :
  fst (retrieve_file_info (retrieval (lit "SN123") (lit "paris")) all_fine
         uploaded_world) =
  Val (error_response [Txt "Incorrect security answer"] 403).
Proof.
  assert (rows_of (lit "SN123") uploaded_world = [sample_row]) as Hrows
    by (vm_compute; reflexivity).
  assert (hash_answer (lit "paris") = Val (lit
    "1670f2e42fefa5044d59a65349e47c566009488fc57d7b4376dd5787b59e3c57")) as Hhash
    by (vm_compute; reflexivity).
  destruct (wrong_answer_reveals_nothing (lit "SN123") (lit "paris") all_fine
              uploaded_world sample_row [] _ eq_refl eq_refl eq_refl Hrows Hhash)
    as [Hwrong _].
  - vm_compute. discriminate.
  - exact Hwrong.
Defined.

(** C7. Retrieval with a serial code that matches no stored record fails
    with the not-found error, status 404. The wrong-answer failure of any
    retrieval has another status, 403, and another error message. *)
Theorem unknown_serial_code_not_found (s a : pystr) (env : Outcomes) (w : World) :
  truthy s = true → truthy a = true →
  on_select env = SelectReturns →
  (∀ r, r ∈ table w → serial_code r ≠ s) →
  let not_found := error_response [Txt "Invalid serial code"] 404 in
  fst (retrieve_file_info (retrieval s a) env w) = Val not_found ∧
  (∀ s' a' env' w' r others h,
     truthy s' = true → truthy a' = true →
     on_select env' = SelectReturns →
     rows_of s' w' = r :: others →
     hash_answer a' = Val h → h ≠ hashed_answer r →
     ∃ wrong_answer,
       fst (retrieve_file_info (retrieval s' a') env' w') = Val wrong_answer ∧
       status wrong_answer = 403 ∧
       status not_found ≠ status wrong_answer ∧
       body not_found ≠ body wrong_answer).
Proof.
  intros Hs Ha Hselect Hnone not_found. split.
  - rewrite retrieve_file_info_eq by done.
    by rewrite Hselect, (rows_of_unknown s w Hnone).
  - intros s' a' env' w' r others h Hs' Ha' Hselect' Hrows Hhash Hne.
    exists (error_response [Txt "Incorrect security answer"] 403).
    rewrite retrieve_file_info_eq by done.
    rewrite Hselect', Hrows, Hhash. simpl.
    rewrite bool_decide_eq_false_2 by done. done.
Qed.

Lemma unknown_serial_code_not_found_witness :
  fst (retrieve_file_info (retrieval (lit "SN999") (lit "Paris")) all_fine
         uploaded_world) =
  Val (error_response [Txt "Invalid serial code"] 404).
Proof.
  destruct (unknown_serial_code_not_found (lit "SN999") (lit "Paris") all_fine
              uploaded_world eq_refl eq_refl eq_refl) as [Hnot_found _].
  - intros r Hr. assert (r = sample_row) as ->.
    { assert (table uploaded_world = [sample_row]) as Htable
        by (vm_compute; reflexivity).
      rewrite Htable in Hr. by apply list_elem_of_singleton in Hr. }
    vm_compute. discriminate.
  - exact Hnot_found.
Defined.

(** ** Rows are only ever added *)

Lemma grows_ret {A} (a : A) : table_grows (ret a).
Proof. intros w. exists []. by rewrite app_nil_r. Qed.

Lemma grows_raise {A} (e : exn) : table_grows (@raise A e).
Proof. intros w. exists []. by rewrite app_nil_r. Qed.

Lemma grows_lift {A} (o : outcome A) : table_grows (lift o).
Proof. intros w. exists []. by rewrite app_nil_r. Qed.

Lemma grows_gets {A} (f : World → A) : table_grows (gets f).
Proof. intros w. exists []. by rewrite app_nil_r. Qed.

Lemma grows_modify (f : World → World) :
  (∀ w, ∃ added, table (f w) = table w ++ added) → table_grows (modify f).
Proof. intros Hf w. apply Hf. Qed.

Lemma grows_bind {A B} (m : M A) (k : A → M B) :
  table_grows m → (∀ a, table_grows (k a)) → table_grows (bind m k).
Proof.
  intros Hm Hk w. unfold bind. destruct (Hm w) as [added1 H1].
  destruct (m w) as [[a|e] w1]; simpl in *.
  - destruct (Hk a w1) as [added2 H2]. exists (added1 ++ added2).
    by rewrite H2, H1, app_assoc.
  - by exists added1.
Qed.

Lemma grows_try_except {A} (m : M A) (h : exn → M A) :
  table_grows m → (∀ e, table_grows (h e)) → table_grows (try_except m h).
Proof.
  intros Hm Hh w. unfold try_except. destruct (Hm w) as [added1 H1].
  destruct (m w) as [[a|e] w1]; simpl in *.
  - by exists added1.
  - destruct (Hh e w1) as [added2 H2]. exists (added1 ++ added2).
    by rewrite H2, H1, app_assoc.
Qed.

Lemma grows_issue (c : call) : table_grows (issue c).
Proof. intros w. exists []. by rewrite app_nil_r. Qed.

Lemma grows_print (t : text) : table_grows (print t).
Proof. intros w. exists []. by rewrite app_nil_r. Qed.

Lemma grows_set_bucket (f : gmap pystr bytes → gmap pystr bytes) :
  table_grows (modify (set_bucket f)).
Proof. intros w. exists []. by rewrite app_nil_r. Qed.

Lemma grows_append (row : FileRecord) :
  table_grows (modify (set_table (fun t => t ++ [row]))).
Proof. intros w. by exists [row]. Qed.

Create HintDb grows.
#[local] Hint Resolve grows_ret grows_raise grows_lift grows_gets grows_issue
  grows_print grows_set_bucket grows_append : grows.

Ltac grows :=
  repeat first
    [ apply grows_bind; [|intros ?]
    | apply grows_try_except; [|intros ?]
    | solve [auto with grows]
    | match goal with
      | |- table_grows (match ?x with _ => _ end) => destruct x
      end ].

Lemma grows_table_select (o : select_outcome) (s : pystr) :
  table_grows (table_select o s).
Proof. unfold table_select. grows. Qed.

Lemma grows_table_insert (o : insert_outcome) (row : FileRecord) :
  table_grows (table_insert o row).
Proof. unfold table_insert. grows. Qed.

Lemma grows_storage_upload (o : upload_outcome) (path : pystr) (file : bytes)
    (content_type : pystr) :
  table_grows (storage_upload o path file content_type).
Proof. unfold storage_upload. grows. Qed.

Lemma grows_storage_get_public_url (o : url_outcome) (path : pystr) :
  table_grows (storage_get_public_url o path).
Proof. unfold storage_get_public_url. grows. Qed.

Lemma grows_storage_remove (o : remove_outcome) (paths : list pystr) :
  table_grows (storage_remove o paths).
Proof. unfold storage_remove. grows. Qed.

#[local] Hint Resolve grows_table_select grows_table_insert grows_storage_upload
  grows_storage_get_public_url grows_storage_remove : grows.

Lemma grows_handle (secure_filename : pystr → pystr) (rq : request) (env : Outcomes) :
  table_grows (handle secure_filename rq env).
Proof.
  destruct rq as [req|req|req]; simpl.
  - unfold upload_file, after, check_serial_code, store_file, store_file_body,
      cleanup, print_cleanup_failed. grows.
  - unfold get_security_question. grows.
  - unfold retrieve_file_info. grows.
Qed.

Lemma serve_table (secure_filename : pystr → pystr)
    (rqs : list (request * Outcomes)) (w : World) :
  ∃ added, table (serve secure_filename rqs w) = table w ++ added.
Proof.
  revert w. induction rqs as [|[rq env] rqs IH]; intros w; simpl.
  - exists []. by rewrite app_nil_r.
  - destruct (grows_handle secure_filename rq env w) as [added1 H1].
    destruct (IH (snd (handle secure_filename rq env w))) as [added2 H2].
    exists (added1 ++ added2). by rewrite H2, H1, app_assoc.
Qed.

(** ** Retrieval after a successful upload *)

Lemma passes_validation_truthy (req : UploadRequest) :
  passes_validation req = true →
  truthy (serial_of req) = true ∧ truthy (answer_of req) = true.
Proof.
  unfold passes_validation, serial_of, answer_of.
  destruct (files_file req) as [file|]; [|discriminate].
  intros [Hall _]%andb_true_iff. simpl in Hall.
  destruct (form_serialCode req), (form_securityQuestion req),
    (form_securityAnswer req); simpl in *; try discriminate;
    repeat (apply andb_true_iff in Hall as [? Hall]); try discriminate; done.
Qed.

(** A 201 response means that the request reached the [try] block, that
    every call answered, and that the row was appended to the table. *)
Lemma upload_file_success (secure_filename : pystr → pystr) (req : UploadRequest)
    (env : Outcomes) (w w1 : World) (file_url : pystr) :
  upload_file secure_filename req env w = (Val (uploaded file_url), w1) →
  ∃ file answer_hash,
    reaches_storage req env w file answer_hash ∧
    table w1 = table w ++ [new_row (serial_of req) (question_of req) answer_hash
                             file_url (secure_filename (filename_of req))].
Proof.
  intros Hup.
  destruct (passes_validation req) eqn:Hvalid.
  2: { destruct (upload_file_rejected secure_filename req env w Hvalid) as [msg H].
       rewrite H in Hup. discriminate. }
  assert (∃ file, files_file req = Some file) as [file Hfile].
  { unfold passes_validation in Hvalid. destruct (files_file req); [by eauto|done]. }
  rewrite (upload_file_validated _ _ _ _ file Hfile Hvalid) in Hup.
  unfold after at 1, bind at 1 in Hup. rewrite check_serial_code_eq in Hup.
  destruct (on_select env) eqn:Hselect; [|discriminate].
  destruct (rows_of (serial_of req) w) eqn:Hrows; [|discriminate].
  unfold bind at 1, lift at 1 in Hup.
  destruct (hash_answer (answer_of req)) as [answer_hash|] eqn:Hhash; [|discriminate].
  exists file, answer_hash. split; [done|].
  unfold after, bind, store_file, try_except in Hup.
  rewrite store_file_body_eq in Hup.
  destruct (on_read env); [|handled_in Hup; discriminate].
  destruct (on_upload env) as [code json|]; [|handled_in Hup; discriminate].
  destruct (code =? 200).
  - destruct (on_get_public_url env) as [publicUrl|];
      [|handled_in Hup; discriminate].
    destruct (truthy_opt publicUrl); [|discriminate].
    cbv zeta in Hup.
    destruct (on_insert env); [| |handled_in Hup; discriminate].
    + injection Hup as <- <-. reflexivity.
    + destruct (on_remove env); try discriminate.
      handled_in Hup; discriminate.
  - destruct json; [discriminate|]. handled_in Hup; discriminate.
Qed.

Lemma rows_of_app (s : pystr) (w : World) (t added : list FileRecord) :
  table w = t ++ added →
  rows_of s w = filter (fun r => serial_code r = s) t
                ++ filter (fun r => serial_code r = s) added.
Proof. intros H. unfold rows_of. by rewrite H, filter_app. Qed.

(** C1. After an upload that succeeded with public URL [u], a retrieval
    with the serial code and the answer of that upload, made after any
    further requests and answered by the store, succeeds with status 200 and
    returns [u] as it was stored, with the stored filename, which is the
    sanitized name of the uploaded file. The row holding them is in the
    table. *)
Theorem retrieve_after_upload (secure_filename : pystr → pystr)
    (req : UploadRequest) (env : Outcomes) (w w1 : World) (u : pystr) :
  upload_file secure_filename req env w = (Val (uploaded u), w1) →
  (∃ answer_hash,
     hash_answer (answer_of req) = Val answer_hash ∧
     new_row (serial_of req) (question_of req) answer_hash u
       (secure_filename (filename_of req)) ∈ table w1) ∧
  (∀ (later : list (request * Outcomes)) (env' : Outcomes),
     on_select env' = SelectReturns →
     fst (retrieve_file_info (retrieval (serial_of req) (answer_of req)) env'
            (serve secure_filename later w1)) =
     Val (jsonify [("message"%string, [Txt "Verification successful"]);
                   ("downloadUrl"%string, [Str u]);
                   ("originalFilename"%string,
                    [Str (secure_filename (filename_of req))])] 200)).
Proof.
  intros Hup.
  destruct (upload_file_success _ _ _ _ _ _ Hup)
    as (file & answer_hash & Hreach & Htable).
  destruct Hreach as (Hfile & Hvalid & Hselect & Hrows & Hhash).
  destruct (passes_validation_truthy req Hvalid) as [Hs Ha].
  set (row := new_row (serial_of req) (question_of req) answer_hash u
                (secure_filename (filename_of req))) in *.
  split.
  - exists answer_hash. split; [done|].
    rewrite Htable, elem_of_app. right. apply list_elem_of_here.
  - intros later env' Hselect'.
    destruct (serve_table secure_filename later w1) as [added Hserve].
    rewrite Htable, <- app_assoc in Hserve.
    rewrite retrieve_file_info_eq by done.
    rewrite Hselect', (rows_of_app _ _ _ _ Hserve).
    unfold rows_of in Hrows. rewrite Hrows. simpl.
    rewrite filter_cons_True by reflexivity. simpl.
    rewrite Hhash, bool_decide_eq_true_2 by reflexivity. reflexivity.
Qed.

Lemma retrieve_after_upload_witness :
  fst (retrieve_file_info (retrieval (lit "SN123") (lit "Paris")) all_fine
         uploaded_world) =
  Val (jsonify [("message"%string, [Txt "Verification successful"]);
                ("downloadUrl"%string, [Str sample_url]);
                ("originalFilename"%string, [Str (lit "report.pdf")])] 200).
Proof.
  destruct (retrieve_after_upload keep_name sample_upload all_fine empty_world
              uploaded_world sample_url) as [_ Hretrieve].
  - vm_compute. reflexivity.
  - exact (Hretrieve [] all_fine eq_refl).
Defined.

(** ** The scenario, end to end *)

Example scenario_upload :
  upload_file keep_name sample_upload all_fine empty_world =
  (Val (uploaded sample_url), uploaded_world).
Proof. vm_compute. reflexivity. Qed.

Example scenario_stored :
  table uploaded_world = [sample_row] ∧
  bucket uploaded_world !! sample_path = Some (content report_pdf).
Proof. vm_compute. split; reflexivity. Qed.

Example scenario_question :
  fst (get_security_question (question_for (lit "SN123")) all_fine uploaded_world) =
  Val (jsonify [("securityQuestion"%string, [Str (lit "What city?")])] 200).
Proof. vm_compute. reflexivity. Qed.

Example scenario_retrieve :
  fst (retrieve_file_info (retrieval (lit "SN123") (lit "Paris")) all_fine
         uploaded_world) = Val (verified sample_row).
Proof. vm_compute. reflexivity. Qed.

Example scenario_case_mismatch :
  fst (retrieve_file_info (retrieval (lit "SN123") (lit "paris")) all_fine
         uploaded_world) =
  Val (error_response [Txt "Incorrect security answer"] 403).
Proof. vm_compute. reflexivity. Qed.

Example scenario_disallowed_type :
  upload_file keep_name
    {| files_file := Some {| filename := Some (lit "malware.exe");
                             content := [77; 90];
                             content_type := lit "application/octet-stream" |};
       form_serialCode := Some (lit "SN124");
       form_securityQuestion := Some (lit "What city?");
       form_securityAnswer := Some (lit "Paris") |} all_fine uploaded_world =
  (Val (error_response [Txt "File type not allowed"] 400), uploaded_world).
Proof. vm_compute. reflexivity. Qed.

Example scenario_surrogate_answer :
  fst (retrieve_file_info (retrieval (lit "SN123") [0xD800]) all_fine uploaded_world) =
  Val (error_response [Txt "Database error: "; StrOf (UnicodeEncodeError 0)] 500).
Proof. vm_compute. reflexivity. Qed.

(** * Further properties of the handlers *)

(** ** The upload as a whole *)

(** A valid upload, statement by statement: the query, the hash of the
    answer, the [try] block, its handler. *)
Lemma upload_file_eq (secure_filename : pystr → pystr) (req : UploadRequest)
    (env : Outcomes) (w : World) (file : FileStorage) :
  files_file req = Some file → passes_validation req = true →
  upload_file secure_filename req env w =
  let w0 := called (TableSelect (serial_of req)) w in
  match on_select env with
  | SelectRaises e =>
    (Val (error_response
            [Txt "Database error during serial code check: "; StrOf e] 500), w0)
  | SelectReturns =>
    match rows_of (serial_of req) w with
    | _ :: _ =>
      (Val (error_response
              [Txt "Serial code already exists. Please choose a different one."]
              409), w0)
    | [] =>
      match hash_answer (answer_of req) with
      | Raised e => (Raised e, w0)
      | Val answer_hash =>
        match store_file_body env file (serial_of req) (question_of req)
                answer_hash (secure_filename (filename_of req))
                (storage_path secure_filename req) w0 with
        | (Val (Return resp), w1) => (Val resp, w1)
        | (Val (Next file_url), w1) => (Val (uploaded file_url), w1)
        | (Raised e, w1) =>
          (handled env (storage_path secure_filename req) e,
           cleanup_world env (storage_path secure_filename req) w1)
        end
      end
    end
  end.
Proof.
  intros Hfile Hvalid. cbv zeta.
  destruct (on_select env) as [|e] eqn:Hselect.
  - destruct (rows_of (serial_of req) w) as [|r rest] eqn:Hrows.
    + destruct (hash_answer (answer_of req)) as [h|e] eqn:Hhash.
      * by apply upload_file_checked.
      * by apply (upload_hash_raises _ _ _ _ file).
    + rewrite (upload_file_validated _ _ _ _ file Hfile Hvalid).
      unfold after, bind at 1. by rewrite check_serial_code_eq, Hselect, Hrows.
  - rewrite (upload_file_validated _ _ _ _ file Hfile Hvalid).
    unfold after, bind at 1. by rewrite check_serial_code_eq, Hselect.
Qed.

Lemma passes_validation_file (req : UploadRequest) :
  passes_validation req = true → ∃ file, files_file req = Some file.
Proof.
  unfold passes_validation. destruct (files_file req); [by eauto|done].
Qed.

(** What an upload does to the store: objects under other paths are left
    alone; the bucket changes only for a serial code that has no row; and
    the table stays as it is or gets the one row of this upload, whose
    object is then in the bucket. *)
Lemma upload_file_world (secure_filename : pystr → pystr) (req : UploadRequest)
    (env : Outcomes) (w : World) :
  let w' := snd (upload_file secure_filename req env w) in
  let path := storage_path secure_filename req in
  (∀ p, p ≠ path → bucket w' !! p = bucket w !! p) ∧
  (bucket w' = bucket w ∨ rows_of (serial_of req) w = []) ∧
  (table w' = table w ∨
   rows_of (serial_of req) w = [] ∧
   ∃ answer_hash url,
     table w' = table w ++ [new_row (serial_of req) (question_of req) answer_hash
                              url (secure_filename (filename_of req))] ∧
     is_Some (bucket w' !! path)).
Proof.
  intros w' path. subst w'.
  destruct (passes_validation req) eqn:Hvalid.
  2: { destruct (upload_file_rejected secure_filename req env w Hvalid) as [msg ->].
       simpl. auto. }
  destruct (passes_validation_file req Hvalid) as [file Hfile].
  rewrite (upload_file_eq _ _ _ _ file Hfile Hvalid). cbv zeta.
  destruct (on_select env); [|simpl; auto].
  destruct (rows_of (serial_of req) w) eqn:Hrows; [|simpl; auto].
  destruct (hash_answer (answer_of req)) as [answer_hash|]; [|simpl; auto].
  rewrite store_file_body_eq. fold path.
  assert (∀ p (c : bytes) (b : gmap pystr bytes), p ≠ path →
            <[path:=c]> b !! p = b !! p) as Hins
    by (intros; by apply lookup_insert_ne).
  assert (∀ p (b : gmap pystr bytes), p ≠ path → delete path b !! p = b !! p)
    as Hdel by (intros; by apply lookup_delete_ne).
  destruct (on_read env); [|cleanup_cases env;
                             simpl; auto 10].
  destruct (on_upload env) as [code json|];
    [|cleanup_cases env; simpl; auto 10].
  destruct (code =? 200).
  2: { destruct json; [simpl; auto|].
       cleanup_cases env; simpl; auto 10. }
  destruct (on_get_public_url env) as [publicUrl|].
  2: { cleanup_cases env; simpl; split; auto;
       intros p Hp; rewrite ?Hdel, ?Hins by done; done. }
  destruct (truthy_opt publicUrl); [|simpl; split; auto; intros p Hp; by rewrite Hins].
  cbv zeta. destruct (on_insert env).
  - simpl. split; [intros p Hp; by rewrite Hins|]. split; [auto|]. right.
    split; [done|]. eexists _, _. split; [reflexivity|].
    rewrite lookup_insert_eq. by eexists.
  - destruct (on_remove env);
      [simpl; split; auto; intros p Hp; rewrite ?Hdel, ?Hins by done; done..|].
    cleanup_cases env; simpl; split; auto;
      intros p Hp; rewrite ?Hdel, ?Hins by done; done.
  - cleanup_cases env; simpl; split; auto;
      intros p Hp; rewrite ?Hdel, ?Hins by done; done.
Qed.

(** ** The retrieval side as a whole *)

Lemma get_security_question_cases (req : QuestionRequest) (env : Outcomes) (w : World) :
  (truthy_opt (question_serialCode req) = false ∧
   get_security_question req env w =
     (Val (error_response [Txt "Missing serial code"] 400), w)) ∨
  (∃ s, req = question_for s ∧ truthy s = true).
Proof.
  destruct req as [[s|]]; [destruct (truthy s) eqn:Hs|].
  - right. by exists s.
  - left. split; [done|]. unfold get_security_question. simpl. by rewrite Hs.
  - left. done.
Qed.

Lemma retrieve_file_info_cases (req : RetrieveRequest) (env : Outcomes) (w : World) :
  ((truthy_opt (json_serialCode req) = false ∨
    truthy_opt (json_securityAnswer req) = false) ∧
   retrieve_file_info req env w = (Val (error_response [Txt "Missing data"] 400), w)) ∨
  (∃ s a, req = retrieval s a ∧ truthy s = true ∧ truthy a = true).
Proof.
  destruct req as [[s|] [a|]]; unfold retrieve_file_info; simpl.
  - destruct (truthy s) eqn:Hs, (truthy a) eqn:Ha; simpl; eauto 10.
  - left. split; [auto|]. by destruct (truthy s).
  - left. auto.
  - left. auto.
Qed.

(** Neither handler of the retrieval side writes: the world after the
    request is the world before it, with at most the query added to the
    calls. *)
Lemma retrieval_side_world (rq : request) (env : Outcomes) (w : World)
    (secure_filename : pystr → pystr) :
  (∀ req, rq ≠ Upload req) →
  ∃ cs, snd (handle secure_filename rq env w) = set_calls (fun c => c ++ cs) w.
Proof.
  intros Hrq. destruct rq as [req|req|req]; [by destruct (Hrq req)| |]; simpl.
  - destruct (get_security_question_cases req env w) as [[_ ->]|(s & -> & Hs)].
    + exists []. destruct w. simpl. unfold set_calls. simpl. by rewrite app_nil_r.
    + rewrite get_security_question_eq by done. by eexists.
  - destruct (retrieve_file_info_cases req env w) as [[_ ->]|(s & a & -> & Hs & Ha)].
    + exists []. destruct w. simpl. unfold set_calls. simpl. by rewrite app_nil_r.
    + rewrite retrieve_file_info_eq by done. by eexists.
Qed.

(** ** Upload: what is answered, and what is left behind *)

(** X1. An upload that does not pass validation is answered with status
    400 before any call to the store: ['No file part'] without the file
    part, ['Missing data'] when the serial code, the question, the answer
    or the filename is absent or empty, ['File type not allowed']
    otherwise. The world is the one before the request. *)
Theorem upload_invalid_request (secure_filename : pystr → pystr)
    (req : UploadRequest) (env : Outcomes) (w : World) :
  passes_validation req = false →
  upload_file secure_filename req env w =
  (Val (error_response
     [Txt match files_file req with
          | None => "No file part"
          | Some file =>
            if forallb truthy_opt
                 [form_serialCode req; form_securityQuestion req;
                  form_securityAnswer req; filename file]
            then "File type not allowed"
            else "Missing data"
          end] 400), w).
Proof.
  unfold passes_validation, upload_file.
  destruct (files_file req) as [file|]; [|done].
  destruct (forallb _ _); [|done]. simpl.
  rewrite allowed_file_total. unfold bind, lift. simpl. by intros ->.
Qed.

Lemma upload_invalid_request_witness :
  upload_file keep_name
    {| files_file := Some {| filename := Some (lit "malware.exe");
                             content := [77; 90];
                             content_type := lit "application/octet-stream" |};
       form_serialCode := Some (lit "SN124");
       form_securityQuestion := Some (lit "What city?");
       form_securityAnswer := Some (lit "Paris") |} all_fine uploaded_world =
  (Val (error_response [Txt "File type not allowed"] 400), uploaded_world).
Proof.
  apply (upload_invalid_request keep_name
    {| files_file := Some {| filename := Some (lit "malware.exe");
                             content := [77; 90];
                             content_type := lit "application/octet-stream" |};
       form_serialCode := Some (lit "SN124");
       form_securityQuestion := Some (lit "What city?");
       form_securityAnswer := Some (lit "Paris") |} all_fine uploaded_world).
  vm_compute. reflexivity.
Defined.

(** X2. When the query for the serial code raises, a valid upload is
    answered with status 500 and the message of the check, whatever rows the
    table holds; the query is the only call, and the store is not touched. *)
Theorem upload_query_raises (secure_filename : pystr → pystr)
    (req : UploadRequest) (env : Outcomes) (w : World) (e : exn) :
  passes_validation req = true →
  on_select env = SelectRaises e →
  upload_file secure_filename req env w =
  (Val (error_response
          [Txt "Database error during serial code check: "; StrOf e] 500),
   called (TableSelect (serial_of req)) w).
Proof.
  intros Hvalid Hselect.
  destruct (passes_validation_file req Hvalid) as [file Hfile].
  rewrite (upload_file_eq _ _ _ _ file Hfile Hvalid). by rewrite Hselect.
Qed.

Lemma upload_query_raises_witness :
  upload_file keep_name sample_upload select_raises uploaded_world =
  (Val (error_response
          [Txt "Database error during serial code check: "; StrOf db_error] 500),
   called (TableSelect (lit "SN123")) uploaded_world).
Proof.
  apply (upload_query_raises keep_name sample_upload select_raises
           uploaded_world db_error).
  - vm_compute. reflexivity.
  - reflexivity.
Defined.

(** X3. When the storage answers the upload with a status other than 200,
    the request fails with status 500 and the body of that answer in the
    message. Nothing was stored and nothing is cleaned up: the calls are the
    query and the upload, bucket and table are as before, nothing is
    printed. *)
Theorem upload_storage_rejects (secure_filename : pystr → pystr)
    (req : UploadRequest) (env : Outcomes) (w : World) (file : FileStorage)
    (answer_hash : pystr) (code : N) (j : pystr) :
  reaches_storage req env w file answer_hash →
  on_read env = ReadReturns →
  on_upload env = UploadResponds code (Val j) → code ≠ 200 →
  let path := storage_path secure_filename req in
  let result := upload_file secure_filename req env w in
  fst result =
    Val (error_response [Txt "Failed to upload file to storage: "; Str j] 500) ∧
  new_calls w (snd result)
    [TableSelect (serial_of req);
     StorageUpload path (content file) (content_type file)] ∧
  bucket (snd result) = bucket w ∧ table (snd result) = table w ∧
  stdout (snd result) = stdout w.
Proof.
  intros Hreach Hread Hupload Hcode path result. subst result.
  rewrite (upload_file_checked _ _ _ _ _ _ Hreach).
  rewrite store_file_body_eq, Hread, Hupload.
  apply N.eqb_neq in Hcode. rewrite Hcode. simpl.
  unfold new_calls. simpl. by rewrite <- app_assoc.
Qed.

Lemma upload_storage_rejects_witness :
  fst (upload_file keep_name sample_upload storage_rejects empty_world) =
  Val (error_response
         [Txt "Failed to upload file to storage: ";
          Str (lit "{'error': 'Bad Request'}")] 500).
Proof.
  destruct (upload_storage_rejects keep_name sample_upload storage_rejects
              empty_world report_pdf sample_hash 400
              (lit "{'error': 'Bad Request'}")) as [Hfst _].
  - apply sample_reaches_storage. reflexivity.
  - reflexivity.
  - reflexivity.
  - discriminate.
  - exact Hfst.
Defined.







(** ** The retrieval side: what is answered *)

(** X6. Lines 122-132, for a body that is a JSON object whose [serialCode]
    is a string, [null] or absent. The question lookup returns a response,
    with one of the statuses 200, 400, 404 and 500: the exception of the
    query is answered, not raised. It never writes: table, bucket and
    printed lines are as before. It answers 400 exactly when the serial code
    is absent or empty, and then it has not queried the store; otherwise the
    query is its one call. *)
Theorem get_security_question_answers (req : QuestionRequest) (env : Outcomes)
    (w : World) :
  ∃ resp cs,
    fst (get_security_question req env w) = Val resp ∧
    new_calls w (snd (get_security_question req env w)) cs ∧
    table (snd (get_security_question req env w)) = table w ∧
    bucket (snd (get_security_question req env w)) = bucket w ∧
    stdout (snd (get_security_question req env w)) = stdout w ∧
    status resp ∈ [200; 400; 404; 500] ∧
    (status resp = 400 ↔ truthy_opt (question_serialCode req) = false) ∧
    (truthy_opt (question_serialCode req) = false → cs = []) ∧
    (∀ s, question_serialCode req = Some s → truthy s = true →
          cs = [TableSelect s]).
Proof.
  destruct (get_security_question_cases req env w) as [[Hs ->]|(s & -> & Hs)].
  - exists (error_response [Txt "Missing serial code"] 400), []. simpl.
    unfold new_calls. rewrite app_nil_r.
    repeat split; try done.
    + apply list_elem_of_further, list_elem_of_here.
    + intros s Hsome Htrue. rewrite Hsome in Hs. simpl in Hs. congruence.
  - rewrite get_security_question_eq by done. simpl.
    eexists _, [TableSelect s]. split; [reflexivity|].
    repeat split; try done.
    + destruct (on_select env); [destruct (rows_of s w)|]; simpl;
        repeat first [apply list_elem_of_here | apply list_elem_of_further].
    + destruct (on_select env); [destruct (rows_of s w)|]; simpl; discriminate.
    + intros H. simpl in H. congruence.
    + intros H. simpl in H. congruence.
    + by intros s' [= ->] _.
Qed.

(** X7. Lines 141-167, for a body that is a JSON object whose [serialCode]
    and [securityAnswer] are strings, [null] or absent. The retrieval
    returns a response, with one of the statuses 200, 400, 403, 404 and 500:
    the exceptions of the query and of hashing the answer are answered, not
    raised. It never writes. It answers 400 exactly when the serial code or
    the answer is absent or empty, and then it has not queried the store;
    otherwise the query is its one call. *)
Theorem retrieve_file_info_answers (req : RetrieveRequest) (env : Outcomes)
    (w : World) :
  ∃ resp cs,
    fst (retrieve_file_info req env w) = Val resp ∧
    new_calls w (snd (retrieve_file_info req env w)) cs ∧
    table (snd (retrieve_file_info req env w)) = table w ∧
    bucket (snd (retrieve_file_info req env w)) = bucket w ∧
    stdout (snd (retrieve_file_info req env w)) = stdout w ∧
    status resp ∈ [200; 400; 403; 404; 500] ∧
    (status resp = 400 ↔
       truthy_opt (json_serialCode req) = false ∨
       truthy_opt (json_securityAnswer req) = false) ∧
    (status resp = 400 → cs = []) ∧
    (∀ s, status resp ≠ 400 → json_serialCode req = Some s → cs = [TableSelect s]).
Proof.
  destruct (retrieve_file_info_cases req env w)
    as [[Hmiss ->]|(s & a & -> & Hs & Ha)].
  - exists (error_response [Txt "Missing data"] 400), []. simpl.
    unfold new_calls. rewrite app_nil_r.
    repeat split; try done.
    apply list_elem_of_further, list_elem_of_here.
  - rewrite retrieve_file_info_eq by done. simpl.
    eexists _, [TableSelect s]. split; [reflexivity|].
    assert (∀ P : Prop,
      status match on_select env with
             | SelectReturns =>
               match rows_of s w with
               | file_data :: _ =>
                 match hash_answer a with
                 | Val provided_answer_hash =>
                   if bool_decide (hashed_answer file_data = provided_answer_hash)
                   then verified file_data
                   else error_response [Txt "Incorrect security answer"] 403
                 | Raised e => error_response [Txt "Database error: "; StrOf e] 500
                 end
               | [] => error_response [Txt "Invalid serial code"] 404
               end
             | SelectRaises e => error_response [Txt "Database error: "; StrOf e] 500
             end = 400 → P) as Hnot400.
    { intros P. destruct (on_select env); [destruct (rows_of s w)|];
        [| destruct (hash_answer a); [destruct (bool_decide _)|] |];
        simpl; discriminate. }
    repeat split; try done.
    + destruct (on_select env); [destruct (rows_of s w)|];
        [| destruct (hash_answer a); [destruct (bool_decide _)|] |]; simpl;
        repeat first [apply list_elem_of_here | apply list_elem_of_further].
    + apply Hnot400.
    + simpl. rewrite Hs, Ha. intros [?|?]; discriminate.
    + apply Hnot400.
    + by intros s' _ [= ->].
Qed.

(** X8. In a retrieval every exception is answered as a database error with
    status 500: the exception of the query, and also the exception of
    hashing an answer that UTF-8 cannot encode, when the serial code has a
    row. The lookup comes first: for a serial code without a row the answer
    is 404 even when the answer cannot be hashed. *)
Theorem retrieve_exceptions_are_database_errors (s a : pystr) (env : Outcomes)
    (w : World) (e : exn) :
  truthy s = true → truthy a = true →
  (on_select env = SelectRaises e ∨
   on_select env = SelectReturns ∧ rows_of s w ≠ [] ∧ hash_answer a = Raised e) →
  fst (retrieve_file_info (retrieval s a) env w) =
    Val (error_response [Txt "Database error: "; StrOf e] 500) ∧
  (∀ env' w', on_select env' = SelectReturns → rows_of s w' = [] →
     fst (retrieve_file_info (retrieval s a) env' w') =
       Val (error_response [Txt "Invalid serial code"] 404)).
Proof.
  intros Hs Ha Hraise. split.
  - rewrite retrieve_file_info_eq by done. simpl.
    destruct Hraise as [->|(-> & Hrows & ->)]; [done|].
    by destruct (rows_of s w).
  - intros env' w' Hselect Hrows. rewrite retrieve_file_info_eq by done.
    by rewrite Hselect, Hrows.
Qed.

Lemma retrieve_exceptions_are_database_errors_witness :
  fst (retrieve_file_info (retrieval (lit "SN123") [0xD800]) all_fine uploaded_world) =
    Val (error_response [Txt "Database error: "; StrOf (UnicodeEncodeError 0)] 500) ∧
  fst (retrieve_file_info (retrieval (lit "SN123") [0xD800]) all_fine empty_world) =
    Val (error_response [Txt "Invalid serial code"] 404).
Proof.
  destruct (retrieve_exceptions_are_database_errors (lit "SN123") [0xD800]
              all_fine uploaded_world (UnicodeEncodeError 0) eq_refl eq_refl)
    as [Herror Hnot_found].
  - right. split; [reflexivity|]. split; [|reflexivity].
    vm_compute. discriminate.
  - split; [exact Herror|]. apply Hnot_found; reflexivity.
Defined.

(** ** Rows stay: what later requests cannot change *)

Lemma rows_of_serve (secure_filename : pystr → pystr) (s : pystr) (w : World)
    (first : FileRecord) (others : list FileRecord)
    (later : list (request * Outcomes)) :
  rows_of s w = first :: others →
  ∃ others', rows_of s (serve secure_filename later w) = first :: others'.
Proof.
  intros Hrows. destruct (serve_table secure_filename later w) as [added Hserve].
  rewrite (rows_of_app _ _ _ _ Hserve). unfold rows_of in Hrows. rewrite Hrows.
  by eexists.
Qed.

(** X9. After an upload that succeeded, the question lookup for its serial
    code, made after any further requests and answered by the store, returns
    the security question of that upload with status 200. *)
Theorem question_after_upload (secure_filename : pystr → pystr)
    (req : UploadRequest) (env : Outcomes) (w w1 : World) (u : pystr) :
  upload_file secure_filename req env w = (Val (uploaded u), w1) →
  ∀ (later : list (request * Outcomes)) (env' : Outcomes),
    on_select env' = SelectReturns →
    fst (get_security_question (question_for (serial_of req)) env'
           (serve secure_filename later w1)) =
    Val (jsonify [("securityQuestion"%string, [Str (question_of req)])] 200).
Proof.
  intros Hup later env' Hselect.
  destruct (upload_file_success _ _ _ _ _ _ Hup)
    as (file & answer_hash & Hreach & Htable).
  destruct Hreach as (Hfile & Hvalid & _ & Hrows & _).
  destruct (passes_validation_truthy req Hvalid) as [Hs _].
  assert (rows_of (serial_of req) w1 =
          [new_row (serial_of req) (question_of req) answer_hash u
             (secure_filename (filename_of req))]) as Hrows1.
  { rewrite (rows_of_app _ _ _ _ Htable). unfold rows_of in Hrows.
    rewrite Hrows. simpl. by rewrite filter_cons_True by reflexivity. }
  destruct (rows_of_serve secure_filename _ _ _ _ later Hrows1) as [others Hlater].
  rewrite get_security_question_eq by done. by rewrite Hselect, Hlater.
Qed.

Lemma question_after_upload_witness :
  fst (get_security_question (question_for (lit "SN123")) all_fine
         (serve keep_name [(Upload other_upload, all_fine)] uploaded_world)) =
  Val (jsonify [("securityQuestion"%string, [Str (lit "What city?")])] 200).
Proof.
  apply (question_after_upload keep_name sample_upload all_fine empty_world
           uploaded_world sample_url).
  - vm_compute. reflexivity.
  - reflexivity.
Defined.

(** X10. The question lookup reads nothing but the security question of
    the first row: two stores whose first rows for the serial code carry the
    same question, or which both have no row, get the same response,
    whatever the hashes, URLs and filenames they hold. *)
Theorem question_lookup_reads_question_only (s : pystr) (env : Outcomes)
    (w w' : World) :
  security_question <$> head (rows_of s w) =
  security_question <$> head (rows_of s w') →
  fst (get_security_question (question_for s) env w) =
  fst (get_security_question (question_for s) env w').
Proof.
  intros Hq. destruct (truthy s) eqn:Hs.
  - rewrite !get_security_question_eq by done. simpl.
    destruct (on_select env); [|done].
    destruct (rows_of s w), (rows_of s w'); simpl in Hq; try discriminate; [done|].
    by injection Hq as ->.
  - unfold get_security_question. simpl. by rewrite Hs.
Qed.

Lemma question_lookup_reads_question_only_witness :
  fst (get_security_question (question_for (lit "SN123")) all_fine uploaded_world) =
  fst (get_security_question (question_for (lit "SN123")) all_fine raced_world).
Proof.
  apply (question_lookup_reads_question_only (lit "SN123") all_fine
           uploaded_world raced_world).
  vm_compute. reflexivity.
Defined.

(** X11. Once a serial code has a row, what the retrieval side answers for
    it is settled: after any further requests, the question lookup and the
    retrieval with any answer respond as they did before. Rows are never
    updated or deleted. *)
Theorem answers_are_settled (secure_filename : pystr → pystr) (s : pystr)
    (w : World) (first : FileRecord) (others : list FileRecord) :
  rows_of s w = first :: others →
  ∀ (later : list (request * Outcomes)) (env : Outcomes) (a : pystr),
    fst (get_security_question (question_for s) env
           (serve secure_filename later w)) =
    fst (get_security_question (question_for s) env w) ∧
    fst (retrieve_file_info (retrieval s a) env (serve secure_filename later w)) =
    fst (retrieve_file_info (retrieval s a) env w).
Proof.
  intros Hrows later env a.
  destruct (rows_of_serve secure_filename _ _ _ _ later Hrows) as [others' Hlater].
  split.
  - destruct (truthy s) eqn:Hs.
    + rewrite !get_security_question_eq by done. by rewrite Hrows, Hlater.
    + unfold get_security_question. simpl. by rewrite Hs.
  - destruct (truthy s) eqn:Hs; [destruct (truthy a) eqn:Ha|].
    + rewrite !retrieve_file_info_eq by done. by rewrite Hrows, Hlater.
    + unfold retrieve_file_info. simpl. by rewrite Hs, Ha.
    + unfold retrieve_file_info. simpl. by rewrite Hs.
Qed.

Lemma answers_are_settled_witness :
  fst (retrieve_file_info (retrieval (lit "SN123") (lit "Paris")) all_fine
         (serve keep_name sample_session uploaded_world)) =
  fst (retrieve_file_info (retrieval (lit "SN123") (lit "Paris")) all_fine
         uploaded_world).
Proof.
  assert (rows_of (lit "SN123") uploaded_world = [sample_row]) as Hrows
    by (vm_compute; reflexivity).
  exact (proj2 (answers_are_settled keep_name (lit "SN123") uploaded_world
                  sample_row [] Hrows sample_session all_fine (lit "Paris"))).
Defined.

(** X12. After an upload that succeeded, every later valid upload under
    the same serial code whose query is answered gets the duplicate error,
    status 409, whatever requests were served in between and whatever file,
    question and answer it carries; it makes no call but the query. *)
Theorem duplicate_after_upload (secure_filename : pystr → pystr)
    (req : UploadRequest) (env : Outcomes) (w w1 : World) (u : pystr) :
  upload_file secure_filename req env w = (Val (uploaded u), w1) →
  ∀ (later : list (request * Outcomes)) (req' : UploadRequest) (env' : Outcomes),
    passes_validation req' = true →
    serial_of req' = serial_of req →
    on_select env' = SelectReturns →
    upload_file secure_filename req' env' (serve secure_filename later w1) =
    (Val (error_response
            [Txt "Serial code already exists. Please choose a different one."] 409),
     called (TableSelect (serial_of req)) (serve secure_filename later w1)).
Proof.
  intros Hup later req' env' Hvalid' Hserial Hselect.
  destruct (upload_file_success _ _ _ _ _ _ Hup)
    as (file & answer_hash & Hreach & Htable).
  destruct Hreach as (_ & _ & _ & Hrows & _).
  assert (rows_of (serial_of req) w1 =
          [new_row (serial_of req) (question_of req) answer_hash u
             (secure_filename (filename_of req))]) as Hrows1.
  { rewrite (rows_of_app _ _ _ _ Htable). unfold rows_of in Hrows.
    rewrite Hrows. simpl. by rewrite filter_cons_True by reflexivity. }
  destruct (rows_of_serve secure_filename _ _ _ _ later Hrows1) as [others Hlater].
  destruct (passes_validation_file req' Hvalid') as [file' Hfile'].
  rewrite (upload_file_eq _ _ _ _ file' Hfile' Hvalid').
  by rewrite Hselect, Hserial, Hlater.
Qed.

Lemma duplicate_after_upload_witness :
  fst (upload_file keep_name sample_upload all_fine
         (serve keep_name [(Upload other_upload, all_fine)] uploaded_world)) =
  Val (error_response
         [Txt "Serial code already exists. Please choose a different one."] 409).
Proof.
  assert (upload_file keep_name sample_upload all_fine empty_world =
          (Val (uploaded sample_url), uploaded_world)) as Hup
    by (vm_compute; reflexivity).
  assert (passes_validation sample_upload = true) as Hvalid
    by (vm_compute; reflexivity).
  rewrite (duplicate_after_upload keep_name sample_upload all_fine empty_world
             uploaded_world sample_url Hup [(Upload other_upload, all_fine)]
             sample_upload all_fine Hvalid eq_refl eq_refl).
  reflexivity.
Defined.

(** ** Invariants of the store under a sequence of requests *)

Lemma rows_of_nil_serials (s : pystr) (w : World) :
  rows_of s w = [] → s ∉ map serial_code (table w).
Proof.
  intros Hrows Hin. apply list_elem_of_In, in_map_iff in Hin as (r & Hs & Hr).
  apply list_elem_of_In in Hr.
  destruct (rows_of_elem s w r Hr Hs) as (r0 & rest & H). congruence.
Qed.

Lemma handle_unique_serials (secure_filename : pystr → pystr) (rq : request)
    (env : Outcomes) (w : World) :
  unique_serials w → unique_serials (snd (handle secure_filename rq env w)).
Proof.
  unfold unique_serials. intros Huniq. destruct rq as [req|req|req].
  - simpl. destruct (upload_file_world secure_filename req env w)
      as (_ & _ & [-> | (Hrows & h & url & -> & _)]); [done|].
    rewrite map_app. simpl. apply NoDup_app. split; [done|]. split.
    + intros x Hx Hnew. apply list_elem_of_singleton in Hnew as ->.
      by apply (rows_of_nil_serials _ _ Hrows).
    + apply NoDup_singleton.
  - destruct (retrieval_side_world (GetQuestion req) env w secure_filename)
      as [cs ->]; [discriminate | done].
  - destruct (retrieval_side_world (Retrieve req) env w secure_filename)
      as [cs ->]; [discriminate | done].
Qed.

(** X13. Served one request after the other, with a query that returns
    the rows of the serial code, the handlers keep serial codes unique: when
    no two rows of the table share a serial code, none do after any sequence
    of requests, whatever the outcomes of the calls. *)
Theorem serve_unique_serials (secure_filename : pystr → pystr)
    (rqs : list (request * Outcomes)) (w : World) :
  unique_serials w → unique_serials (serve secure_filename rqs w).
Proof.
  revert w. induction rqs as [|[rq env] rqs IH]; intros w Huniq; simpl; [done|].
  apply IH. by apply handle_unique_serials.
Qed.

Lemma serve_unique_serials_witness :
  unique_serials (serve keep_name sample_session empty_world) ∧
  length (table (serve keep_name sample_session empty_world)) = 2%nat.
Proof.
  split; [|vm_compute; reflexivity].
  apply (serve_unique_serials keep_name sample_session empty_world).
  apply NoDup_nil_2.
Defined.





(** X15. One upload request, whatever its outcome, leaves every object
    stored under another path than its own as it is, keeps every row of the
    table in place, and adds at most one row. *)
Theorem upload_leaves_the_rest (secure_filename : pystr → pystr)
    (req : UploadRequest) (env : Outcomes) (w : World) :
  let w' := snd (upload_file secure_filename req env w) in
  (∀ p, p ≠ storage_path secure_filename req → bucket w' !! p = bucket w !! p) ∧
  (∃ added, table w' = table w ++ added ∧ (length added ≤ 1)%nat).
Proof.
  destruct (upload_file_world secure_filename req env w)
    as (Hframe & _ & Htable).
  split; [exact Hframe|].
  destruct Htable as [-> | (_ & h & url & -> & _)].
  - exists []. rewrite app_nil_r. simpl. split; [done | lia].
  - eexists. split; [reflexivity | simpl; lia].
Qed.

(** ** The allow-list: what the verdict depends on *)

(** X16. The verdict of [allowed_file] depends on nothing but the
    extension after the last ['.'], and on it only up to case: two names
    whose extensions lowercase to the same string are both allowed or both
    rejected, whatever comes before the last ['.'], further dots and other
    extensions included. *)
Theorem allowed_file_extension_only (h h' ext ext' : pystr) :
  dot ∉ ext → dot ∉ ext' → lower ext = lower ext' →
  allowed_file (h ++ dot :: ext) = allowed_file (h' ++ dot :: ext').
Proof.
  intros Hext Hext' Hlower. rewrite !allowed_file_total.
  assert (split_last dot (h ++ dot :: ext) = Some (h, ext)) as ->
    by by apply split_last_Some.
  assert (split_last dot (h' ++ dot :: ext') = Some (h', ext')) as ->
    by by apply split_last_Some.
  by rewrite Hlower.
Qed.

Lemma allowed_file_extension_only_witness :
  allowed_file (lit "malware.exe.PdF") = allowed_file (lit "report.pdf").
Proof.
  apply (allowed_file_extension_only (lit "malware.exe") (lit "report")
           (lit "PdF") (lit "pdf")).
  - intros H. apply contains_elem_of in H. discriminate.
  - intros H. apply contains_elem_of in H. discriminate.
  - reflexivity.
Defined.

(** ** Start-up *)

(** X17. Loading the module goes on to create the client exactly when
    [SUPABASE_URL] and [SUPABASE_KEY] are both set and not empty, and raises
    otherwise: an empty value counts as a missing one. The bucket name is
    the value of [SUPABASE_STORAGE_BUCKET_NAME] when that variable is set,
    an empty value included, and ['uploads'] only when it is not set. *)
Theorem startup_needs_url_and_key (env : environ) :
  ((∃ c, startup env = Started c) ↔
   ∃ url key, env !! lit "SUPABASE_URL" = Some url ∧ url ≠ [] ∧
              env !! lit "SUPABASE_KEY" = Some key ∧ key ≠ []) ∧
  (∀ c, startup env = Started c →
     env !! lit "SUPABASE_URL" = Some (SUPABASE_URL c) ∧
     env !! lit "SUPABASE_KEY" = Some (SUPABASE_KEY c) ∧
     (∀ name, env !! lit "SUPABASE_STORAGE_BUCKET_NAME" = Some name →
              SUPABASE_STORAGE_BUCKET_NAME c = name) ∧
     (env !! lit "SUPABASE_STORAGE_BUCKET_NAME" = None →
      SUPABASE_STORAGE_BUCKET_NAME c = lit "uploads")).
Proof.
  unfold startup, getenv, getenv_default.
  destruct (env !! lit "SUPABASE_URL") as [[|u url]|];
    destruct (env !! lit "SUPABASE_KEY") as [[|k key]|]; simpl;
    (split; [split; [intros [c H]; try discriminate; eauto 10
                    | intros (url' & key' & Hu & Hnu & Hk & Hnk);
                      try discriminate; try congruence; eauto]
            | intros c H; try discriminate]).
  injection H as <-. simpl. repeat split.
  - by intros name ->.
  - by intros ->.
Qed.

Lemma startup_needs_url_and_key_witness :
  startup sample_environ =
  Started {| SUPABASE_URL := lit "https://project.supabase.co";
             SUPABASE_KEY := lit "secret";
             SUPABASE_STORAGE_BUCKET_NAME := lit "uploads" |} ∧
  startup (delete (lit "SUPABASE_KEY") sample_environ) =
  StartupException "Supabase URL and Key must be set in the .env file.".
Proof.
  split; [|vm_compute; reflexivity].
  destruct (proj2 (proj1 (startup_needs_url_and_key sample_environ))) as [c Hc].
  - exists (lit "https://project.supabase.co"), (lit "secret").
    split; [vm_compute; reflexivity|]. split; [discriminate|].
    split; [vm_compute; reflexivity | discriminate].
  - vm_compute. reflexivity.
Defined.

(** ** Printing a line that cannot be encoded *)

(** With a serial code set by hand to [S] followed by a lone surrogate, an
    upload that raises and a removal that raises, [print] raises at the
    surrogate, character 20 of the line, and its exception leaves
    [upload_file]: no response is returned and nothing is printed. *)
Example scenario_unprintable_line :
  upload_file keep_name
    {| files_file := Some report_pdf;
       form_serialCode := Some [83; 0xDC00];
       form_securityQuestion := Some (lit "What city?");
       form_securityAnswer := Some (lit "Paris") |} upload_raises empty_world =
  (Raised (UnicodeEncodeError 20),
   {| table := []; bucket := ∅;
      calls := [TableSelect [83; 0xDC00];
                StorageUpload ([83; 0xDC00] ++ lit "/report.pdf")
                  (content report_pdf) (content_type report_pdf);
                StorageRemove [[83; 0xDC00] ++ lit "/report.pdf"]];
      stdout := [] |}).
Proof. vm_compute. reflexivity. Qed.
